(** * dexscreener_realtime_data: the binary decoding pipeline

    A shallow embedding of [src/dexscreener_realtime_data/__main__.py]:
    [handle_double], [decode_metrics], [clean_string], [decode_pair], the
    frame scanner inside [connect_to_dexscreener], and the reconnect loops
    of [connect_to_dexscreener] and [main].

    Conventions.
    - A Python [int] is a [Z]; [bytes] is a [list byte]; a [str] is the list
      of its code points.
    - A Python [float] is its IEEE 754 binary64 bit pattern, a [Z] below
      [2^64]; classification and comparison are read off the bit fields.
    - A [dict] is an association list in insertion order without repeated
      keys.
    - Code that can raise runs in the [result] monad; a [try]/[except
      Exception] block is [try_except]. *)

From Stdlib Require Import ZArith List String Ascii Bool Lia.
From Stdlib Require Import Strings.Byte DecimalString.
Import ListNotations.

Local Open Scope string_scope.
Local Open Scope list_scope.
Local Open Scope Z_scope.

(* ------------------------------------------------------------------ *)
(** ** Exceptions *)

Inductive exn : Type :=
| KeyError (key : string)
| IndexError
| StructError
| TypeError
| OSError.

Inductive result (A : Type) : Type :=
| Ok (a : A)
| Raise (e : exn).

Arguments Ok {A} a.
Arguments Raise {A} e.

Definition bind {A B : Type} (m : result A) (k : A -> result B) : result B :=
  match m with
  | Ok a => k a
  | Raise e => Raise e
  end.

(** [try: body / except Exception: handler]. *)
Definition try_except {A : Type} (body : result A) (handler : exn -> result A)
  : result A :=
  match body with
  | Ok a => Ok a
  | Raise e => handler e
  end.

Declare Scope py_scope.
Delimit Scope py_scope with py.
Notation "x <- m ;; k" := (bind m (fun x => k))
  (at level 61, m at next level, right associativity) : py_scope.
Notation "' p <- m ;; k" := (bind m (fun x => let p := x in k))
  (at level 61, p pattern, m at next level, right associativity) : py_scope.
Local Open Scope py_scope.

(* ------------------------------------------------------------------ *)
(** ** Python sequences *)

Definition len {A : Type} (l : list A) : Z := Z.of_nat (List.length l).

(** The clamping a slice bound undergoes: a negative bound counts from the
    end, and every bound is cut to [0, n]. *)
Definition slice_bound (n i : Z) : Z :=
  if i <? 0 then Z.max (n + i) 0 else Z.min i n.

(** [l[i:j]]. *)
Definition py_slice {A : Type} (l : list A) (i j : Z) : list A :=
  let lo := slice_bound (len l) i in
  let hi := slice_bound (len l) j in
  firstn (Z.to_nat (hi - lo)) (skipn (Z.to_nat lo) l).

(** [l[i]]: a negative index counts from the end; out of range raises. *)
Definition py_index {A : Type} (l : list A) (i : Z) : result A :=
  let k := if i <? 0 then len l + i else i in
  if (0 <=? k) && (k <? len l) then
    match nth_error l (Z.to_nat k) with
    | Some a => Ok a
    | None => Raise IndexError
    end
  else Raise IndexError.

Definition ord_byte (b : byte) : Z := Z.of_N (Byte.to_N b).

(* ------------------------------------------------------------------ *)
(** ** Dictionaries *)

Definition dict (V : Type) : Type := list (string * V).

(** [d.get(k)]. *)
Fixpoint dict_get {V : Type} (k : string) (d : dict V) : option V :=
  match d with
  | [] => None
  | (k', v) :: d' => if String.eqb k' k then Some v else dict_get k d'
  end.

(** [k in d]. *)
Definition dict_mem {V : Type} (k : string) (d : dict V) : bool :=
  match dict_get k d with
  | Some _ => true
  | None => false
  end.

(** [d[k]]. *)
Definition dict_item {V : Type} (k : string) (d : dict V) : result V :=
  match dict_get k d with
  | Some v => Ok v
  | None => Raise (KeyError k)
  end.

(** [d[k] = v]: an existing key keeps its place, a new key goes last. *)
Fixpoint dict_set {V : Type} (k : string) (v : V) (d : dict V) : dict V :=
  match d with
  | [] => [(k, v)]
  | (k', v') :: d' =>
      if String.eqb k' k then (k', v) :: d' else (k', v') :: dict_set k v d'
  end.

(* ------------------------------------------------------------------ *)
(** ** Floats as binary64 bit patterns *)

Definition float64 : Type := Z.

Definition is_float64 (v : float64) : Prop := 0 <= v < 2 ^ 64.

Definition sign_bit (v : float64) : bool := Z.testbit v 63.
Definition exponent_field (v : float64) : Z := Z.land (Z.shiftr v 52) 2047.
Definition fraction_field (v : float64) : Z := Z.land v (2 ^ 52 - 1).

(** [math.isfinite]: the exponent field is not all ones. *)
Definition isfinite (v : float64) : bool := negb (exponent_field v =? 2047).

Definition isnan (v : float64) : bool :=
  (exponent_field v =? 2047) && negb (fraction_field v =? 0).

(** [v == 0]: plus or minus zero, every bit below the sign clear. *)
Definition float_eq_zero (v : float64) : bool := Z.land v (2 ^ 63 - 1) =? 0.

Definition pos_zero : float64 := 0.

Inductive byteorder : Type := LittleEndian | BigEndian.

(** [int.from_bytes(bs, "little")]. *)
Fixpoint int_from_bytes (bs : list byte) : Z :=
  match bs with
  | [] => 0
  | b :: bs' => ord_byte b + 256 * int_from_bytes bs'
  end.

(** The byte whose value is [z mod 256]. *)
Definition byte_of_Z (z : Z) : byte :=
  match Byte.of_N (Z.to_N (z mod 256)) with
  | Some b => b
  | None => x00
  end.

(** [v.to_bytes(n, "little")], the bits of [v] above [8 n] dropped. *)
Fixpoint int_to_bytes (n : nat) (v : Z) : list byte :=
  match n with
  | O => []
  | S n' => byte_of_Z v :: int_to_bytes n' (v / 256)
  end.

(** [struct.unpack("d", bs)[0]] and [struct.pack("d", v)] in the machine's
    byte order: the bit pattern read from, or laid out in, eight bytes. *)
Definition unpack_double (order : byteorder) (bs : list byte) : float64 :=
  match order with
  | LittleEndian => int_from_bytes bs
  | BigEndian => int_from_bytes (rev bs)
  end.

Definition pack_double (order : byteorder) (v : float64) : list byte :=
  match order with
  | LittleEndian => int_to_bytes 8 v
  | BigEndian => rev (int_to_bytes 8 v)
  end.

(** [struct.unpack("8d", bs)]: [struct.error] unless [bs] has 64 bytes. *)
Definition unpack_8d (order : byteorder) (bs : list byte)
  : result (list float64) :=
  if len bs =? 64 then
    Ok (map (fun i => unpack_double order (py_slice bs (8 * i) (8 * i + 8)))
            [0; 1; 2; 3; 4; 5; 6; 7])
  else Raise StructError.

(** [handle_double]: what [struct.unpack] yields is always a float, so only
    the finiteness test decides. *)
Definition handle_double (value : float64) : float64 :=
  if negb (isfinite value) then pos_zero else value.

(** The loop of [decode_metrics] over [value_map.items()]. *)
Definition keep_metrics (value_map : dict float64) : dict float64 :=
  fold_left
    (fun metrics kv =>
       let cleaned := handle_double (snd kv) in
       if negb (float_eq_zero cleaned) then dict_set (fst kv) cleaned metrics
       else metrics)
    value_map [].

Definition decode_metrics (order : byteorder) (data : list byte) (start_pos : Z)
  : result (dict float64 * Z) :=
  try_except
    (if start_pos + 64 >? len data then Ok ([], start_pos)
     else
       values <- unpack_8d order (py_slice data start_pos (start_pos + 64)) ;;
       match values with
       | [v0; v1; v2; v3; v4; v5; v6; _] =>
           let value_map :=
             [("price", v0); ("priceUsd", v1); ("priceChangeH24", v2);
              ("liquidityUsd", v3); ("volumeH24", v4); ("fdv", v5);
              ("timestamp", v6)] in
           Ok (keep_metrics value_map, start_pos + 64)
       | _ => Raise IndexError
       end)
    (fun _ => Ok ([], start_pos)).

(** ** Float comparison and truncation, as Python evaluates them *)

(** The integer significand and the power of two that scales it. *)
Definition significand (v : float64) : Z :=
  if exponent_field v =? 0 then fraction_field v
  else 2 ^ 52 + fraction_field v.

Definition scale (v : float64) : Z :=
  (if exponent_field v =? 0 then 1 else exponent_field v) - 1075.

Definition signed_significand (v : float64) : Z :=
  if sign_bit v then - significand v else significand v.

(** [math.floor(v)] and [int(v)] of a finite [v]. *)
Definition float_floor (v : float64) : Z :=
  if 0 <=? scale v then signed_significand v * 2 ^ scale v
  else signed_significand v / 2 ^ (- scale v).

Definition float_trunc (v : float64) : Z :=
  if 0 <=? scale v then signed_significand v * 2 ^ scale v
  else Z.quot (signed_significand v) (2 ^ (- scale v)).

(** [0 <= v]. *)
Definition float_ge_zero (v : float64) : bool :=
  negb (isnan v) && (negb (sign_bit v) || float_eq_zero v).

(** [v < n] for an integer [n]: on finite [v] it is [floor v < n]. *)
Definition float_lt_int (v : float64) (n : Z) : bool :=
  if isnan v then false
  else if isfinite v then float_floor v <? n
  else sign_bit v.

(* ------------------------------------------------------------------ *)
(** ** Text *)

(** A [str]: its code points, each what [ord] returns. *)
Definition ustring : Type := list Z.

Definition ord_ascii (a : ascii) : Z := Z.of_N (N_of_ascii a).

(** A literal of the source. *)
Definition lit (s : string) : ustring := map ord_ascii (list_ascii_of_string s).

Fixpoint ustring_eqb (s t : ustring) : bool :=
  match s, t with
  | [], [] => true
  | c :: s', d :: t' => (c =? d) && ustring_eqb s' t'
  | _, _ => false
  end.

(** Truth value of a sequence: it is not empty. *)
Definition truthy {A : Type} (l : list A) : bool :=
  match l with
  | [] => false
  | _ :: _ => true
  end.

(** [c in s] for a one-character [c]. *)
Definition contains (c : Z) (s : ustring) : bool := existsb (Z.eqb c) s.

(** [s.split(sep)[0]] for a one-character [sep]: what precedes the first
    [sep], all of [s] when there is none. *)
Fixpoint before (sep : Z) (s : ustring) : ustring :=
  match s with
  | [] => []
  | c :: s' => if c =? sep then [] else c :: before sep s'
  end.

(** [str.isspace] of one character. *)
Definition isspace (c : Z) : bool :=
  ((9 <=? c) && (c <=? 13)) || ((28 <=? c) && (c <=? 32))
  || (c =? 133) || (c =? 160) || (c =? 5760)
  || ((8192 <=? c) && (c <=? 8202))
  || (c =? 8232) || (c =? 8233) || (c =? 8239) || (c =? 8287) || (c =? 12288).

Fixpoint lstrip (s : ustring) : ustring :=
  match s with
  | [] => []
  | c :: s' => if isspace c then lstrip s' else s
  end.

Definition rstrip (s : ustring) : ustring := rev (lstrip (rev s)).

(** [s.strip()]. *)
Definition strip (s : ustring) : ustring := rstrip (lstrip s).

(** The filter of [clean_string]: printable ASCII, or the tab. *)
Definition printable (c : Z) : bool :=
  ((32 <=? c) && (c <? 127)) || (c =? 9).

Definition at_sign : Z := 64.
Definition backslash : Z := 92.

(** [clean_string]. Nothing in its [try] block raises on a [str], so the
    handler that returns the empty string is never entered. *)
Definition clean_string (s : ustring) : ustring :=
  if negb (truthy s) then []
  else
    let cleaned := filter printable s in
    let cleaned :=
      if contains at_sign cleaned || contains backslash cleaned
      then before backslash (before at_sign cleaned)
      else cleaned in
    strip cleaned.

(** *** [bytes.decode("utf-8", errors="ignore")]

    A well-formed sequence yields its code point.  At an ill-formed one the
    decoder drops the lead byte together with the continuation bytes that
    were still acceptable, and resumes at the offending byte; a sequence
    cut short by the end of the input is dropped. *)

Definition is_cont (b : Z) : bool := (128 <=? b) && (b <=? 191).

(** The second byte of a three- and of a four-byte sequence has a range
    that depends on the lead (no overlong forms, no surrogates, nothing
    above U+10FFFF). *)
Definition second_of_3 (b0 b1 : Z) : bool :=
  if b0 =? 224 then (160 <=? b1) && (b1 <=? 191)
  else if b0 =? 237 then (128 <=? b1) && (b1 <=? 159)
  else is_cont b1.

Definition second_of_4 (b0 b1 : Z) : bool :=
  if b0 =? 240 then (144 <=? b1) && (b1 <=? 191)
  else if b0 =? 244 then (128 <=? b1) && (b1 <=? 143)
  else is_cont b1.

Definition low6 (b : Z) : Z := Z.land b 63.

Fixpoint utf8_decode_ignore (bs : list byte) : ustring :=
  match bs with
  | [] => []
  | x0 :: t0 =>
      let b0 := ord_byte x0 in
      if b0 <? 128 then b0 :: utf8_decode_ignore t0
      else if b0 <? 194 then utf8_decode_ignore t0
      else if b0 <? 224 then
        match t0 with
        | [] => []
        | x1 :: t1 =>
            let b1 := ord_byte x1 in
            if is_cont b1
            then Z.lor (Z.shiftl (Z.land b0 31) 6) (low6 b1)
                 :: utf8_decode_ignore t1
            else utf8_decode_ignore t0
        end
      else if b0 <? 240 then
        match t0 with
        | [] => []
        | x1 :: t1 =>
            let b1 := ord_byte x1 in
            if second_of_3 b0 b1 then
              match t1 with
              | [] => []
              | x2 :: t2 =>
                  let b2 := ord_byte x2 in
                  if is_cont b2
                  then Z.lor (Z.shiftl (Z.land b0 15) 12)
                         (Z.lor (Z.shiftl (low6 b1) 6) (low6 b2))
                       :: utf8_decode_ignore t2
                  else utf8_decode_ignore t1
              end
            else utf8_decode_ignore t0
        end
      else if b0 <? 245 then
        match t0 with
        | [] => []
        | x1 :: t1 =>
            let b1 := ord_byte x1 in
            if second_of_4 b0 b1 then
              match t1 with
              | [] => []
              | x2 :: t2 =>
                  let b2 := ord_byte x2 in
                  if is_cont b2 then
                    match t2 with
                    | [] => []
                    | x3 :: t3 =>
                        let b3 := ord_byte x3 in
                        if is_cont b3
                        then Z.lor (Z.shiftl (Z.land b0 7) 18)
                               (Z.lor (Z.shiftl (low6 b1) 12)
                                  (Z.lor (Z.shiftl (low6 b2) 6) (low6 b3)))
                             :: utf8_decode_ignore t3
                        else utf8_decode_ignore t2
                    end
                  else utf8_decode_ignore t1
              end
            else utf8_decode_ignore t0
        end
      else utf8_decode_ignore t0
  end.

(* ------------------------------------------------------------------ *)
(** ** What the interpreter and the machine supply *)

(** The decoder calls three things that are not the repository's: the byte
    order behind [struct]'s native [d] format, [str] on a float, and
    [datetime.fromtimestamp(n).strftime("%Y-%m-%d %H:%M:%S")] in the local
    time zone (which may raise). *)
Record platform : Type := {
  native : byteorder;
  float_str : float64 -> ustring;
  strftime_local : Z -> result ustring
}.

(** A stand-in used to run the decoder on concrete inputs: little-endian,
    a float rendered as [f] followed by the decimal digits of its bit
    pattern, and a formatter that always raises (so the fallback string is
    stored). *)
Definition decimal (n : Z) : ustring :=
  lit (DecimalString.NilZero.string_of_int (Z.to_int n)).

Definition reference_platform : platform := {|
  native := LittleEndian;
  float_str := fun v => lit "f" ++ decimal v;
  strftime_local := fun _ => Raise OSError
|}.

(* ------------------------------------------------------------------ *)
(** ** Records *)

(** What a record maps a key to: a string, an integer, or a group such as
    [{"h24": "..."}]. *)
Inductive value : Type :=
| VStr (s : ustring)
| VInt (n : Z)
| VGroup (g : dict ustring).

Definition record : Type := dict value.

(** [sep.join(parts)]. *)
Fixpoint join (sep : ustring) (parts : list ustring) : ustring :=
  match parts with
  | [] => []
  | part :: rest =>
      match rest with
      | [] => part
      | _ :: _ => part ++ sep ++ join sep rest
      end
  end.

(** [repr] of a string with neither quote nor escape in it. *)
Definition quoted (s : ustring) : ustring := lit "'" ++ s ++ lit "'".

(** [str(v)]: a string is itself, an integer its decimal digits, a group
    its [repr] (keys and values of a group are a name of the source and a
    rendered float, which [quoted] covers). *)
Definition py_str (v : value) : ustring :=
  match v with
  | VStr s => s
  | VInt n => decimal n
  | VGroup g =>
      lit "{"
      ++ join (lit ", ")
           (map (fun kv => quoted (lit (fst kv)) ++ lit ": " ++ quoted (snd kv)) g)
      ++ lit "}"
  end.

(** [d.get(k, default)]. *)
Definition dict_get_default {V : Type} (k : string) (default : V) (d : dict V)
  : V :=
  match dict_get k d with
  | Some v => v
  | None => default
  end.

(** [isinstance(v, dict)]. *)
Definition isinstance_dict (v : value) : bool :=
  match v with
  | VGroup _ => true
  | _ => false
  end.

(** [v[k]] where [v] is known to be a dict. *)
Definition group_item (k : string) (v : value) : result ustring :=
  match v with
  | VGroup g => dict_item k g
  | _ => Raise TypeError
  end.

(** The leading [while] loop of [decode_pair]: [rest] is [data[pos:]]. *)
Fixpoint skip_prefix (rest : list byte) (pos : Z) : Z :=
  match rest with
  | [] => pos
  | b :: rest' =>
      if (ord_byte b =? 0) || (ord_byte b =? 10)
      then skip_prefix rest' (pos + 1)
      else pos
  end.

Definition fields : list string :=
  ["chain"; "protocol"; "pairAddress"; "baseTokenName"; "baseTokenSymbol";
   "baseTokenAddress"].

(** One turn of the [for field in fields] loop past its [break] test: read
    the length byte, then skip or decode the field.  The inner [try] wraps
    a decode with [errors="ignore"] and [clean_string], neither of which
    raises, so its handler is not modelled. *)
Definition decode_field (data : list byte) (pos : Z) (field : string)
  (pair : record) : result (Z * record) :=
  b <- py_index data pos ;;
  let str_len := ord_byte b in
  let pos := pos + 1 in
  if (str_len =? 0) || (str_len >? 100) || (pos + str_len >? len data)
  then Ok (pos + str_len, pair)
  else
    let value :=
      clean_string (utf8_decode_ignore (py_slice data pos (pos + str_len))) in
    let pair := if truthy value then dict_set field (VStr value) pair else pair in
    Ok (pos + str_len, pair).

Fixpoint decode_fields (data : list byte) (fs : list string) (pos : Z)
  (pair : record) : result (Z * record) :=
  match fs with
  | [] => Ok (pos, pair)
  | field :: fs' =>
      if pos >=? len data then Ok (pos, pair)
      else
        ' (pos', pair') <- decode_field data pos field pair ;;
        decode_fields data fs' pos' pair'
  end.

(** [if key in metrics: pair = store(metrics[key])]. *)
Definition copy_metric (key : string) (metrics : dict float64)
  (store : float64 -> record -> record) (pair : record) : result record :=
  if dict_mem key metrics then
    v <- dict_item key metrics ;;
    Ok (store v pair)
  else Ok pair.

(** [datetime.fromtimestamp(v).strftime(...)] on a stored value. *)
Definition format_created (P : platform) (v : value) : result ustring :=
  match v with
  | VInt n => strftime_local P n
  | _ => Raise TypeError
  end.

Definition epoch_origin : ustring := lit "1970-01-01 00:00:00".

Definition year_2100 : Z := 4102444800.

(** The [if metrics:] block of [decode_pair]. *)
Definition emit_metrics (P : platform) (metrics : dict float64) (pair : record)
  : result record :=
  if truthy metrics then
    pair <- copy_metric "price" metrics
              (fun v => dict_set "price" (VStr (float_str P v))) pair ;;
    pair <- copy_metric "priceUsd" metrics
              (fun v => dict_set "priceUsd" (VStr (float_str P v))) pair ;;
    pair <- copy_metric "priceChangeH24" metrics
              (fun v => dict_set "priceChange"
                          (VGroup [("h24", float_str P v)])) pair ;;
    pair <- copy_metric "liquidityUsd" metrics
              (fun v => dict_set "liquidity"
                          (VGroup [("usd", float_str P v)])) pair ;;
    pair <- copy_metric "volumeH24" metrics
              (fun v => dict_set "volume"
                          (VGroup [("h24", float_str P v)])) pair ;;
    pair <- copy_metric "fdv" metrics
              (fun v => dict_set "fdv" (VStr (float_str P v))) pair ;;
    if dict_mem "timestamp" metrics then
      ts <- dict_item "timestamp" metrics ;;
      if float_ge_zero ts && float_lt_int ts year_2100 then
        let pair := dict_set "pairCreatedAt" (VInt (float_trunc ts)) pair in
        try_except
          (created <- dict_item "pairCreatedAt" pair ;;
           formatted <- format_created P created ;;
           Ok (dict_set "pairCreatedAtFormatted" (VStr formatted) pair))
          (fun _ =>
             Ok (dict_set "pairCreatedAtFormatted" (VStr epoch_origin) pair))
      else Ok pair
    else Ok pair
  else Ok pair.

(** The four strings the validation looks at. *)
Definition price_text (pair : record) : ustring :=
  py_str (dict_get_default "price" (VStr (lit "0")) pair).

Definition price_usd_text (pair : record) : ustring :=
  py_str (dict_get_default "priceUsd" (VStr (lit "0")) pair).

(** [str(g["h24"]) if isinstance(g, dict) else "0"] with
    [g = pair.get(key, {})]: the default is itself a dict, so an absent
    key runs into the subscript. *)
Definition group_text (key inner : string) (pair : record) : result ustring :=
  let g := dict_get_default key (VGroup []) pair in
  if isinstance_dict g then group_item inner g else Ok (lit "0").

Definition differs_from_zero (v : ustring) : bool := negb (ustring_eqb v (lit "0")).

(** The validation block of [decode_pair]. *)
Definition validate (pair : record) : result (option record) :=
  if len pair >? 2 then
    let price := price_text pair in
    let price_usd := price_usd_text pair in
    volume_h24 <- group_text "volume" "h24" pair ;;
    liquidity_usd <- group_text "liquidity" "usd" pair ;;
    if existsb differs_from_zero [price; price_usd; volume_h24; liquidity_usd]
    then Ok (Some pair)
    else Ok None
  else Ok None.

(** The mapping [decode_pair] has built when it reaches the validation. *)
Definition build_pair (P : platform) (data : list byte) : result record :=
  let pos := skip_prefix data 0 in
  ' (pos, pair') <- decode_fields data fields pos [] ;;
  let pos := Z.land (pos + 7) (Z.lnot 7) in
  ' (metrics, _) <- decode_metrics (native P) data pos ;;
  emit_metrics P metrics pair'.

(** [decode_pair]: [None] is "no record". *)
Definition decode_pair (P : platform) (data : list byte)
  : result (option record) :=
  try_except
    (pair <- build_pair P data ;;
     validate pair)
    (fun _ => Ok None).

(* ------------------------------------------------------------------ *)
(** ** The frame scanner *)

(** [b"\x00\n1.3.0\n"] and [b"pairs"]. *)
Definition magic_header : list byte := [x00; x0a; x31; x2e; x33; x2e; x30; x0a].
Definition pairs_token : list byte := [x70; x61; x69; x72; x73].

(** [l.startswith(prefix)]. *)
Fixpoint startswith (l prefix : list byte) : bool :=
  match prefix with
  | [] => true
  | p :: prefix' =>
      match l with
      | [] => false
      | b :: l' => Byte.eqb b p && startswith l' prefix'
      end
  end.

(** [l.find(sub)]: the lowest index at which [sub] occurs, [-1] if none;
    [i] is the index of the head of [l]. *)
Fixpoint find_from (l sub : list byte) (i : Z) : Z :=
  if startswith l sub then i
  else
    match l with
    | [] => -1
    | _ :: l' => find_from l' sub (i + 1)
    end.

Definition find (l sub : list byte) : Z := find_from l sub 0.

(** The [while pos < len(message)] loop; each turn moves [pos] by 512, so
    [fuel] turns are enough once [fuel] exceeds the length. *)
Fixpoint scan_slices (fuel : nat) (P : platform) (message : list byte)
  (pos : Z) (pairs : list record) : result (list record) :=
  match fuel with
  | O => Ok pairs
  | S fuel' =>
      if pos <? len message then
        let pair_data := py_slice message pos (pos + 512) in
        found <- decode_pair P pair_data ;;
        let pairs :=
          match found with
          | Some p => if truthy p then pairs ++ [p] else pairs
          | None => pairs
          end in
        scan_slices fuel' P message (pos + 512) pairs
      else Ok pairs
  end.

(** The [isinstance(message, bytes)] branch up to the batch: [None] where
    the source says [continue]. *)
Definition scan_message (P : platform) (message : list byte)
  : result (option (list record)) :=
  if negb (startswith message magic_header) then Ok None
  else
    let pairs_start := find message pairs_token in
    if pairs_start =? -1 then Ok None
    else
      pairs <- scan_slices (S (List.length message)) P message (pairs_start + 5) [] ;;
      Ok (Some pairs).

(* ------------------------------------------------------------------ *)
(** ** The session and the reconnect loops *)

Inductive message : Type :=
| Text (s : ustring)
| Binary (data : list byte).

(** What the process does that the outside can see. *)
Inductive event : Type :=
| Sent (s : ustring)
| Printed (batch : list record)
| Slept (seconds : Z).

(** The body of the receive loop for one message; a raise lands in
    [except Exception: continue]. *)
Definition handle_message (P : platform) (m : message) : list event :=
  match m with
  | Text s => if ustring_eqb s (lit "ping") then [Sent (lit "pong")] else []
  | Binary data =>
      match scan_message P data with
      | Ok (Some pairs) => if truthy pairs then [Printed pairs] else []
      | Ok None => []
      | Raise _ => []
      end
  end.

(** One pass of the outer [while True] of [connect_to_dexscreener]: the
    connection is refused (an [Exception] out of [websockets.connect]), or
    it is made, delivers [inbox] and is then closed by the peer. *)
Inductive attempt : Type :=
| ConnectFails
| Connected (inbox : list message).

(** The events of the outer loop over a finite run of attempts.  A failed
    attempt is caught by the loop's own [except Exception] and followed by
    [asyncio.sleep(1)]; a closed connection leaves the receive loop by
    [break] and the next attempt starts at once. *)
Fixpoint reconnect_loop (P : platform) (attempts : list attempt) : list event :=
  match attempts with
  | [] => []
  | ConnectFails :: rest => Slept 1 :: reconnect_loop P rest
  | Connected inbox :: rest =>
      flat_map (handle_message P) inbox ++ reconnect_loop P rest
  end.

(** How a call stands when the observed run ends. *)
Inductive status : Type :=
| Running
| Returned
| Raised (e : exn).

(** One call of [connect_to_dexscreener] as [main] sees it.  The lines
    before the loop (building the URI, [ssl.create_default_context()]) are
    outside every [try]; past them the loop never ends. *)
Inductive call : Type :=
| SetupFails
| Connects (attempts : list attempt).

Definition connect_to_dexscreener (P : platform) (c : call)
  : list event * status :=
  match c with
  | SetupFails => ([], Raised OSError)
  | Connects attempts => (reconnect_loop P attempts, Running)
  end.

(** The loop of [main], [backoff] being its variable. *)
Fixpoint main_loop (P : platform) (calls : list call) (backoff : Z)
  : list event :=
  match calls with
  | [] => []
  | c :: rest =>
      match connect_to_dexscreener P c with
      | (events, Returned) => events ++ main_loop P rest 1
      | (events, Raised _) =>
          events ++ Slept backoff :: main_loop P rest (Z.min (backoff * 2) 60)
      | (events, Running) => events
      end
  end.

Definition main (P : platform) (calls : list call) : list event :=
  main_loop P calls 1.

(** The waits of a run, in order. *)
Definition sleeps (events : list event) : list Z :=
  flat_map (fun e => match e with Slept s => [s] | _ => [] end) events.

(* ------------------------------------------------------------------ *)
(** ** Vocabulary of the properties *)

(** The names of the first seven slots of a metrics block, in slot order
    (the keys of [value_map]). *)
Definition metric_keys : list string :=
  ["price"; "priceUsd"; "priceChangeH24"; "liquidityUsd"; "volumeH24"; "fdv";
   "timestamp"].

(** The float held by slot [i] of the block that starts at [start_pos]. *)
Definition slot_value (order : byteorder) (data : list byte) (start_pos i : Z)
  : float64 :=
  unpack_double order (py_slice data (start_pos + 8 * i) (start_pos + 8 * i + 8)).

(** [value_map] as [decode_metrics] fills it: each name with its slot. *)
Definition value_map_at (order : byteorder) (data : list byte) (start_pos : Z)
  : dict float64 :=
  combine metric_keys (map (slot_value order data start_pos) [0; 1; 2; 3; 4; 5; 6]).

(** Whether the loop of [decode_metrics] keeps a value. *)
Definition kept (v : float64) : bool := negb (float_eq_zero (handle_double v)).

(** A field is rejected when its length byte is zero, above 100, or
    reaches past the end of the buffer. *)
Definition rejected (data : list byte) (pos str_len : Z) : Prop :=
  str_len = 0 \/ str_len > 100 \/ len data - (pos + 1) < str_len.

(** The consecutive slices of [size] bytes a section falls into, the last
    one possibly shorter. *)
Definition slices (size : nat) (section : list byte) : list (list byte) :=
  map (fun i => firstn size (skipn (i * size) section))
      (seq 0 ((List.length section + (size - 1)) / size)).

(** The bytes of a frame that begin [gap] bytes after the end of the first
    [pairs] token. *)
Definition section_after_token (gap : nat) (message : list byte) : list byte :=
  skipn (Z.to_nat (find message pairs_token) + List.length pairs_token + gap)
        message.

(** The records a run of slices decodes to, in order, empty results
    dropped. *)
Definition decoded_records (P : platform) (chunks : list (list byte))
  : list record :=
  flat_map
    (fun chunk =>
       match decode_pair P chunk with
       | Ok (Some p) => if truthy p then [p] else []
       | _ => []
       end)
    chunks.

(** The waits the backoff rule prescribes for [n] failures in a row:
    [1, 2, 4, ...], capped at 60. *)
Fixpoint backoff_waits (n : nat) (backoff : Z) : list Z :=
  match n with
  | O => []
  | S n' => backoff :: backoff_waits n' (Z.min (backoff * 2) 60)
  end.

(** A string that does not begin with white space. *)
Definition starts_clean (s : ustring) : Prop :=
  match s with
  | [] => True
  | c :: _ => isspace c = false
  end.

(** What [clean_string] leaves: printable characters other than the two
    markers, with no white space at either end. *)
Definition cleaned_text (s : ustring) : Prop :=
  (forall c, In c s -> printable c = true /\ c <> at_sign /\ c <> backslash)
  /\ strip s = s.

(** A float that passes the filter of [decode_metrics]. *)
Definition surviving (v : float64) : Prop :=
  isfinite v = true /\ float_eq_zero v = false.

(** The rendering of a surviving float. *)
Definition rendered (P : platform) (s : ustring) : Prop :=
  exists v, surviving v /\ s = float_str P v.

(** What the four validated keys hold whenever they are present; the other
    keys are unconstrained. *)
Definition well_shaped (P : platform) (key : string) (x : value) : Prop :=
  if String.eqb key "price" || String.eqb key "priceUsd"
  then exists s, x = VStr s /\ rendered P s
  else if String.eqb key "volume"
  then exists s, x = VGroup [("h24", s)] /\ rendered P s
  else if String.eqb key "liquidity"
  then exists s, x = VGroup [("usd", s)] /\ rendered P s
  else True.

Definition numeric_shape (P : platform) (pair : record) : Prop :=
  forall key x, dict_get key pair = Some x -> well_shaped P key x.

(** [str] never renders a surviving float as the one-character string
    [0]: the rendering of a float always carries a point or an exponent. *)
Definition renders_nonzero (P : platform) : Prop :=
  forall v, surviving v -> float_str P v <> lit "0".

(** The number of refused connections in a run of attempts. *)
Definition failures (attempts : list attempt) : nat :=
  List.length (filter (fun a => match a with ConnectFails => true | _ => false end)
                 attempts).

(** A code point or byte value below 128. *)
Definition is_ascii (c : Z) : bool := c <? 128.

(** [bs.decode("latin-1")]: every byte as the character of its value. *)
Definition latin1_decode (bs : list byte) : ustring := map ord_byte bs.

(** The alignment step of [decode_pair], [(pos + 7) & ~7]. *)
Definition align8 (pos : Z) : Z := Z.land (pos + 7) (Z.lnot 7).

(** A delimiter byte, [0x00] or [0x0A]. *)
Definition is_delimiter (b : byte) : bool :=
  (ord_byte b =? 0) || (ord_byte b =? 10).

(** A text field as the feed lays it out: a length byte, then one byte per
    character (the characters being ASCII). *)
Definition encode_field (s : ustring) : list byte :=
  byte_of_Z (len s) :: map byte_of_Z s.

(** A text that a field can carry and give back: 1 to 100 printable
    characters, no marker, no white space at either end. *)
Definition field_text (s : ustring) : Prop :=
  1 <= len s <= 100
  /\ (forall c, In c s -> ((32 <= c < 127) \/ c = 9) /\ c <> 64 /\ c <> 92)
  /\ starts_clean s /\ starts_clean (rev s).

(** The entries a run of (name, text) pairs adds to a record. *)
Definition store_texts (entries : list (string * ustring)) (pair : record)
  : record :=
  fold_left (fun p e => dict_set (fst e) (VStr (snd e)) p) entries pair.

(** What [copy_metric] does to the record, as a plain function. *)
Definition with_metric (key : string) (metrics : dict float64)
  (store : float64 -> record -> record) (pair : record) : record :=
  match dict_get key metrics with
  | Some v => store v pair
  | None => pair
  end.

(** The formatted creation time: the platform's rendering, or the epoch
    origin when the platform raises. *)
Definition formatted_or_origin (P : platform) (n : Z) : ustring :=
  match strftime_local P n with
  | Ok s => s
  | Raise _ => epoch_origin
  end.

(** The record [emit_metrics] builds, as a plain function. *)
Definition emitted (P : platform) (metrics : dict float64) (pair : record)
  : record :=
  if truthy metrics then
    let pair := with_metric "price" metrics
                  (fun v => dict_set "price" (VStr (float_str P v))) pair in
    let pair := with_metric "priceUsd" metrics
                  (fun v => dict_set "priceUsd" (VStr (float_str P v))) pair in
    let pair := with_metric "priceChangeH24" metrics
                  (fun v => dict_set "priceChange"
                              (VGroup [("h24", float_str P v)])) pair in
    let pair := with_metric "liquidityUsd" metrics
                  (fun v => dict_set "liquidity"
                              (VGroup [("usd", float_str P v)])) pair in
    let pair := with_metric "volumeH24" metrics
                  (fun v => dict_set "volume"
                              (VGroup [("h24", float_str P v)])) pair in
    let pair := with_metric "fdv" metrics
                  (fun v => dict_set "fdv" (VStr (float_str P v))) pair in
    match dict_get "timestamp" metrics with
    | Some ts =>
        if float_ge_zero ts && float_lt_int ts year_2100 then
          dict_set "pairCreatedAtFormatted"
            (VStr (formatted_or_origin P (float_trunc ts)))
            (dict_set "pairCreatedAt" (VInt (float_trunc ts)) pair)
        else pair
    | None => pair
    end
  else pair.

(** The verdict of the validation on a mapping whose groups are in shape. *)
Definition accepted (pair : record) : bool :=
  (len pair >? 2) && dict_mem "volume" pair && dict_mem "liquidity" pair.

(** [starts_clean] and [field_text] as tests. *)
Definition starts_clean_b (s : ustring) : bool :=
  match s with
  | [] => true
  | c :: _ => negb (isspace c)
  end.

Definition field_text_b (s : ustring) : bool :=
  (1 <=? len s) && (len s <=? 100)
  && forallb (fun c => printable c && negb (c =? 64) && negb (c =? 92)) s
  && starts_clean_b s && starts_clean_b (rev s).

(** The entries a record can hold: what [decode_pair] writes under each
    key. *)
Inductive entry (P : platform) : string -> value -> Prop :=
| entry_text (field : string) (s : ustring) :
    In field fields -> s <> [] -> cleaned_text s ->
    entry P field (VStr s)
| entry_price (v : float64) :
    surviving v -> entry P "price" (VStr (float_str P v))
| entry_price_usd (v : float64) :
    surviving v -> entry P "priceUsd" (VStr (float_str P v))
| entry_price_change (v : float64) :
    surviving v -> entry P "priceChange" (VGroup [("h24", float_str P v)])
| entry_liquidity (v : float64) :
    surviving v -> entry P "liquidity" (VGroup [("usd", float_str P v)])
| entry_volume (v : float64) :
    surviving v -> entry P "volume" (VGroup [("h24", float_str P v)])
| entry_fdv (v : float64) :
    surviving v -> entry P "fdv" (VStr (float_str P v))
| entry_created (n : Z) :
    0 <= n < year_2100 -> entry P "pairCreatedAt" (VInt n)
| entry_formatted (n : Z) :
    0 <= n < year_2100 ->
    entry P "pairCreatedAtFormatted" (VStr (formatted_or_origin P n)).

(** A record with no key twice and every entry in the schema. *)
Definition conforms (P : platform) (pair : record) : Prop :=
  NoDup (map fst pair)
  /\ forall k x, dict_get k pair = Some x -> entry P k x.

(** Every key a record can hold. *)
Definition record_keys : list string :=
  fields ++ ["price"; "priceUsd"; "priceChange"; "liquidity"; "volume"; "fdv";
             "pairCreatedAt"; "pairCreatedAtFormatted"].

(** ** Sample inputs *)

(** A block of eight slots: an infinity, a NaN, a zero, a minus zero, then
    1.0 four times. *)
Definition sample_block : list byte :=
  pack_double LittleEndian 9218868437227405312
  ++ pack_double LittleEndian 9221120237041090560
  ++ pack_double LittleEndian 0
  ++ pack_double LittleEndian 9223372036854775808
  ++ pack_double LittleEndian 4607182418800017408
  ++ pack_double LittleEndian 4607182418800017408
  ++ pack_double LittleEndian 4607182418800017408
  ++ pack_double LittleEndian 4607182418800017408.

(** A length-prefixed text field as the feed lays it out. *)
Definition text_field (s : string) : list byte :=
  byte_of_Z (Z.of_nat (String.length s)) :: list_byte_of_string s.

(** Six well-formed fields, 26 bytes, and the 6 bytes that pad them to an
    8-byte boundary. *)
Definition six_fields : list byte :=
  text_field "sol" ++ text_field "ray" ++ text_field "addr"
  ++ text_field "name" ++ text_field "sym" ++ text_field "tok"
  ++ repeat x00 6.

(** A slot that reads the same in both byte orders: the float
    [0x3FF000000000F03F], a little above 1.0. *)
Definition mirror_slot : list byte := [x3f; xf0; x00; x00; x00; x00; xf0; x3f].
Definition mirror_value : float64 := 4607182418800078911.
Definition zero_slot : list byte := repeat x00 8.

(** Six fields, then price, liquidityUsd and volumeH24 set. *)
Definition full_slice : list byte :=
  six_fields
  ++ mirror_slot ++ zero_slot ++ zero_slot ++ mirror_slot
  ++ mirror_slot ++ zero_slot ++ zero_slot ++ zero_slot.

(** Six fields, then price alone set. *)
Definition price_only_slice : list byte :=
  six_fields
  ++ mirror_slot ++ zero_slot ++ zero_slot ++ zero_slot
  ++ zero_slot ++ zero_slot ++ zero_slot ++ zero_slot.

(** The record [full_slice] decodes to on the stand-in platform. *)
Definition full_record : record :=
  Eval vm_compute in
    match build_pair reference_platform full_slice with
    | Ok p => p
    | Raise _ => []
    end.

(** A data frame: header, marker token, one slice. *)
Definition sample_frame : list byte := magic_header ++ pairs_token ++ full_slice.

(** The slots of the stand-in slices. *)
Definition full_block : list byte :=
  mirror_slot ++ zero_slot ++ zero_slot ++ mirror_slot
  ++ mirror_slot ++ zero_slot ++ zero_slot ++ zero_slot.

Definition six_texts_sample : list ustring :=
  [lit "sol"; lit "ray"; lit "addr"; lit "name"; lit "sym"; lit "tok"].

(* ================================================================== *)
(** * Properties *)

(** ** Tactics *)

(** A key the validation does not look at is unconstrained. *)
Ltac shape_free := unfold well_shaped; simpl; exact I.

(** A validated key set to the rendering of the surviving float [v]. *)
Ltac shape_rendered v Hv :=
  unfold well_shaped; simpl; eexists; split;
  [reflexivity | exists v; split; [exact Hv | reflexivity]].

(** ** Results *)

Lemma bind_ok {A B : Type} (m : result A) (k : A -> result B) (b : B) :
  bind m k = Ok b -> exists a, m = Ok a /\ k a = Ok b.
Proof.
  destruct m as [a | e]; simpl; intros H.
  - exists a; split; [reflexivity | exact H].
  - discriminate H.
Qed.

Lemma try_except_total {A : Type} (body : result A) (fallback : A) :
  exists a, try_except body (fun _ => Ok fallback) = Ok a.
Proof.
  destruct body as [a | e]; simpl; eauto.
Qed.

(** ** Sequences *)

(** Inside the buffer a slice is a [skipn] followed by a [firstn]. *)
Lemma py_slice_inside {A : Type} (l : list A) (i j : Z) :
  0 <= i -> i <= j ->
  py_slice l i j =
  firstn (Z.to_nat (Z.min j (len l) - Z.min i (len l)))
         (skipn (Z.to_nat (Z.min i (len l))) l).
Proof.
  intros Hi Hij. unfold py_slice, slice_bound.
  destruct (i <? 0) eqn:Ei; [apply Z.ltb_lt in Ei; lia |].
  destruct (j <? 0) eqn:Ej; [apply Z.ltb_lt in Ej; lia |].
  reflexivity.
Qed.

Lemma py_slice_window {A : Type} (l : list A) (i n : Z) :
  0 <= i -> 0 <= n -> i <= len l ->
  py_slice l i (i + n) = firstn (Z.to_nat n) (skipn (Z.to_nat i) l).
Proof.
  intros Hi Hn Hil. rewrite py_slice_inside by lia.
  rewrite (Z.min_l i) by lia.
  destruct (Z.le_gt_cases (i + n) (len l)) as [Hin | Hout].
  - rewrite Z.min_l by lia. f_equal. lia.
  - rewrite Z.min_r by lia.
    rewrite !firstn_all2; try reflexivity;
      rewrite length_skipn; unfold len in *; lia.
Qed.

Lemma len_py_slice {A : Type} (l : list A) (i j : Z) :
  0 <= i -> i <= j -> j <= len l -> len (py_slice l i j) = j - i.
Proof.
  intros Hi Hij Hj. rewrite py_slice_inside by lia.
  rewrite !Z.min_l by lia. unfold len in *.
  rewrite length_firstn, length_skipn. lia.
Qed.

(** A slice of a slice, the inner window lying inside the outer one. *)
Lemma py_slice_nested {A : Type} (l : list A) (s n a b : Z) :
  0 <= s -> s + n <= len l -> 0 <= a -> a <= b -> b <= n ->
  py_slice (py_slice l s (s + n)) a b = py_slice l (s + a) (s + b).
Proof.
  intros Hs Hn Ha Hab Hb.
  assert (Hlen : len (py_slice l s (s + n)) = n) by (rewrite len_py_slice; lia).
  rewrite (py_slice_inside (py_slice l s (s + n))) by lia.
  rewrite Hlen, !Z.min_l by lia.
  rewrite (py_slice_inside l (s + a)) by lia.
  rewrite !Z.min_l by lia.
  rewrite (py_slice_window l s n) by lia.
  rewrite skipn_firstn_comm, firstn_firstn, skipn_skipn.
  replace (Z.to_nat a + Z.to_nat s)%nat with (Z.to_nat (s + a)) by lia.
  f_equal; lia.
Qed.

(** ** Dictionaries *)

Lemma dict_get_set_same {V : Type} (k : string) (v : V) (d : dict V) :
  dict_get k (dict_set k v d) = Some v.
Proof.
  induction d as [| [k' v'] d IH]; simpl.
  - rewrite String.eqb_refl. reflexivity.
  - destruct (String.eqb k' k) eqn:E; simpl; rewrite E; auto.
Qed.

Lemma dict_get_set_other {V : Type} (k k' : string) (v : V) (d : dict V) :
  k <> k' -> dict_get k (dict_set k' v d) = dict_get k d.
Proof.
  intros Hne. induction d as [| [k0 v0] d IH]; simpl.
  - destruct (String.eqb k' k) eqn:E; [| reflexivity].
    apply String.eqb_eq in E. congruence.
  - destruct (String.eqb k0 k') eqn:E0; simpl.
    + apply String.eqb_eq in E0. subst k0.
      destruct (String.eqb k' k) eqn:E; [| reflexivity].
      apply String.eqb_eq in E. congruence.
    + destruct (String.eqb k0 k); [reflexivity | exact IH].
Qed.

Lemma dict_mem_set_same {V : Type} (k : string) (v : V) (d : dict V) :
  dict_mem k (dict_set k v d) = true.
Proof. unfold dict_mem. rewrite dict_get_set_same. reflexivity. Qed.

Lemma dict_mem_set_other {V : Type} (k k' : string) (v : V) (d : dict V) :
  k <> k' -> dict_mem k (dict_set k' v d) = dict_mem k d.
Proof. intros H. unfold dict_mem. rewrite dict_get_set_other by exact H. reflexivity. Qed.

Lemma dict_get_absent {V : Type} (k : string) (d : dict V) :
  ~ In k (map fst d) -> dict_get k d = None.
Proof.
  induction d as [| [k' v'] d IH]; simpl; intros Hnot; [reflexivity |].
  destruct (String.eqb k' k) eqn:E.
  - apply String.eqb_eq in E. tauto.
  - apply IH. tauto.
Qed.

(** ** The metrics block *)

Lemma kept_iff (v : float64) :
  kept v = true <-> isfinite v = true /\ float_eq_zero v = false.
Proof.
  unfold kept, handle_double.
  destruct (isfinite v); simpl.
  - destruct (float_eq_zero v); simpl; intuition congruence.
  - change (float_eq_zero pos_zero) with true. simpl. intuition congruence.
Qed.

Lemma kept_handle_double (v : float64) : kept v = true -> handle_double v = v.
Proof.
  intros H. apply kept_iff in H. destruct H as [Hf _].
  unfold handle_double. rewrite Hf. reflexivity.
Qed.

Lemma fold_keep_get (value_map acc : dict float64) (key : string) :
  NoDup (map fst value_map) ->
  dict_get key
    (fold_left
       (fun metrics kv =>
          let cleaned := handle_double (snd kv) in
          if negb (float_eq_zero cleaned) then dict_set (fst kv) cleaned metrics
          else metrics)
       value_map acc)
  = match dict_get key value_map with
    | Some v => if kept v then Some (handle_double v) else dict_get key acc
    | None => dict_get key acc
    end.
Proof.
  revert acc. induction value_map as [| [k v] vm IH]; intros acc Hnd.
  - reflexivity.
  - inversion Hnd as [| ? ? Hnotin Hnd']; subst.
    cbn [fold_left fst snd]. rewrite IH by exact Hnd'.
    cbn [dict_get]. destruct (String.eqb k key) eqn:E.
    + apply String.eqb_eq in E. subst key.
      rewrite (dict_get_absent k vm) by exact Hnotin.
      unfold kept. cbv zeta.
      destruct (negb (float_eq_zero (handle_double v))).
      * apply dict_get_set_same.
      * reflexivity.
    + assert (Hne : key <> k).
      { intros ->. rewrite String.eqb_refl in E. discriminate E. }
      cbv zeta.
      destruct (negb (float_eq_zero (handle_double v)));
        [rewrite dict_get_set_other by exact Hne |]; reflexivity.
Qed.

Lemma keep_metrics_get (value_map : dict float64) (key : string) :
  NoDup (map fst value_map) ->
  dict_get key (keep_metrics value_map)
  = match dict_get key value_map with
    | Some v => if kept v then Some (handle_double v) else None
    | None => None
    end.
Proof.
  intros Hnd. unfold keep_metrics. rewrite fold_keep_get by exact Hnd.
  reflexivity.
Qed.

Lemma metric_keys_nodup : NoDup metric_keys.
Proof.
  unfold metric_keys.
  repeat (constructor; [simpl; intuition discriminate |]). constructor.
Qed.

Lemma value_map_at_keys (order : byteorder) (data : list byte) (s : Z) :
  map fst (value_map_at order data s) = metric_keys.
Proof. reflexivity. Qed.

Lemma value_map_at_get (order : byteorder) (data : list byte) (s : Z)
  (i : nat) (key : string) :
  nth_error metric_keys i = Some key ->
  dict_get key (value_map_at order data s)
  = Some (slot_value order data s (Z.of_nat i)).
Proof.
  intros Hkey. unfold metric_keys in Hkey.
  do 7 (destruct i as [| i];
        [injection Hkey as <-; reflexivity | simpl in Hkey]).
  destruct i; discriminate Hkey.
Qed.

(** With the whole block inside the buffer, [decode_metrics] filters the
    seven named slots and moves the cursor past the block. *)
Lemma decode_metrics_inside (order : byteorder) (data : list byte) (s : Z) :
  0 <= s -> s + 64 <= len data ->
  decode_metrics order data s
  = Ok (keep_metrics (value_map_at order data s), s + 64).
Proof.
  intros Hs Hfit. unfold decode_metrics.
  destruct (s + 64 >? len data) eqn:E; [apply Z.gtb_lt in E; lia |].
  unfold unpack_8d.
  rewrite len_py_slice by lia.
  replace (s + 64 - s =? 64) with true by (symmetry; apply Z.eqb_eq; lia).
  cbn [bind map try_except].
  unfold value_map_at, slot_value, metric_keys. cbn [map combine].
  rewrite !(py_slice_nested data s 64) by lia.
  repeat match goal with
         | |- context [s + ?a + 8] =>
             replace (s + a + 8) with (s + (a + 8)) by lia
         end.
  reflexivity.
Qed.

Lemma decode_metrics_short (order : byteorder) (data : list byte) (s : Z) :
  len data < s + 64 -> decode_metrics order data s = Ok ([], s).
Proof.
  intros Hshort. unfold decode_metrics.
  destruct (s + 64 >? len data) eqn:E; [reflexivity |].
  rewrite Z.gtb_ltb in E. apply Z.ltb_ge in E. lia.
Qed.

Lemma decode_metrics_never_raises (order : byteorder) (data : list byte) (s : Z) :
  exists r, decode_metrics order data s = Ok r.
Proof. unfold decode_metrics. apply try_except_total. Qed.

(** ** Bytes and bit patterns *)

Lemma ord_byte_range (b : byte) : 0 <= ord_byte b < 256.
Proof.
  unfold ord_byte. pose proof (Byte.to_N_bounded b) as H. lia.
Qed.

Lemma ord_byte_of_Z (z : Z) : ord_byte (byte_of_Z z) = z mod 256.
Proof.
  unfold byte_of_Z, ord_byte.
  assert (Hr : 0 <= z mod 256 < 256) by (apply Z.mod_pos_bound; lia).
  destruct (Byte.of_N (Z.to_N (z mod 256))) as [b |] eqn:E.
  - apply Byte.to_of_N in E. rewrite E. lia.
  - apply Byte.of_N_None_iff in E. lia.
Qed.

Lemma length_int_to_bytes (n : nat) (v : Z) : List.length (int_to_bytes n v) = n.
Proof.
  revert v. induction n as [| n IH]; intros v; simpl; [| rewrite IH]; reflexivity.
Qed.

Lemma int_from_to_bytes (n : nat) (v : Z) :
  int_from_bytes (int_to_bytes n v) = v mod 256 ^ Z.of_nat n.
Proof.
  revert v. induction n as [| n IH]; intros v.
  - simpl. rewrite Z.mod_1_r. reflexivity.
  - cbn [int_to_bytes int_from_bytes].
    rewrite ord_byte_of_Z, IH.
    rewrite Nat2Z.inj_succ, Z.pow_succ_r by lia.
    rewrite Z.rem_mul_r by lia. reflexivity.
Qed.

(** Packing a bit pattern and unpacking it gives it back, in either byte
    order. *)
Lemma unpack_pack_double (order : byteorder) (v : float64) :
  is_float64 v -> unpack_double order (pack_double order v) = v.
Proof.
  intros Hv. unfold is_float64 in Hv.
  assert (H8 : int_from_bytes (int_to_bytes 8 v) = v).
  { rewrite int_from_to_bytes. change (256 ^ Z.of_nat 8) with (2 ^ 64).
    apply Z.mod_small. exact Hv. }
  destruct order; unfold unpack_double, pack_double.
  - exact H8.
  - rewrite rev_involutive. exact H8.
Qed.

(** ** The contract of the metrics decoder *)

(** C5. For every buffer and every cursor position in it, [decode_metrics]
    does not raise; when fewer than 64 bytes remain past the cursor it
    returns the empty metrics map and the cursor unchanged, and otherwise
    it returns the cursor moved forward by exactly 64. *)
Theorem decode_metrics_cursor (order : byteorder) (data : list byte)
  (start_pos : Z) :
  0 <= start_pos ->
  exists metrics,
    decode_metrics order data start_pos
    = Ok (metrics,
          if len data - start_pos <? 64 then start_pos else start_pos + 64)
    /\ (len data - start_pos < 64 -> metrics = []).
Proof.
  intros Hpos.
  destruct (len data - start_pos <? 64) eqn:E.
  - apply Z.ltb_lt in E. exists [].
    split; [apply decode_metrics_short; lia | reflexivity].
  - apply Z.ltb_ge in E.
    exists (keep_metrics (value_map_at order data start_pos)).
    split; [apply decode_metrics_inside; lia | lia].
Qed.

Lemma decode_metrics_cursor_witness :
  exists metrics,
    decode_metrics LittleEndian [x01; x02; x03] 1
    = Ok (metrics, if len [x01; x02; x03] - 1 <? 64 then 1 else 1 + 64)
    /\ (len [x01; x02; x03] - 1 < 64 -> metrics = []).
Proof.
  apply (decode_metrics_cursor LittleEndian [x01; x02; x03] 1). lia.
Defined.

(** C6. A slot among the first seven whose float is not finite (NaN or an
    infinity) or is zero leaves its name out of the metrics that
    [decode_metrics] returns. *)
Theorem non_finite_or_zero_is_absent (order : byteorder) (data : list byte)
  (start_pos : Z) (i : nat) (key : string) :
  0 <= start_pos ->
  nth_error metric_keys i = Some key ->
  isfinite (slot_value order data start_pos (Z.of_nat i)) = false
  \/ float_eq_zero (slot_value order data start_pos (Z.of_nat i)) = true ->
  exists metrics pos,
    decode_metrics order data start_pos = Ok (metrics, pos)
    /\ dict_get key metrics = None.
Proof.
  intros Hpos Hkey Hbad.
  destruct (Z.lt_ge_cases (len data) (start_pos + 64)) as [Hshort | Hfit].
  - exists [], start_pos. split; [apply decode_metrics_short; exact Hshort |].
    reflexivity.
  - exists (keep_metrics (value_map_at order data start_pos)), (start_pos + 64).
    split; [apply decode_metrics_inside; lia |].
    rewrite keep_metrics_get
      by (rewrite value_map_at_keys; exact metric_keys_nodup).
    rewrite (value_map_at_get order data start_pos i key Hkey).
    destruct (kept (slot_value order data start_pos (Z.of_nat i))) eqn:Ek;
      [| reflexivity].
    apply kept_iff in Ek. destruct Ek as [Hf Hz].
    destruct Hbad as [Hbad | Hbad]; congruence.
Qed.

Lemma non_finite_or_zero_is_absent_witness :
  exists metrics pos,
    decode_metrics LittleEndian sample_block 0 = Ok (metrics, pos)
    /\ dict_get "priceUsd" metrics = None.
Proof.
  apply (non_finite_or_zero_is_absent LittleEndian sample_block 0 1 "priceUsd").
  - lia.
  - reflexivity.
  - left. vm_compute. reflexivity.
Defined.

(** C7. A finite float other than zero, packed in the machine's byte order
    into one of the first seven slots of a block, comes back unchanged
    under the slot's name when [decode_metrics] decodes the block. *)
Theorem metrics_round_trip (order : byteorder) (data : list byte)
  (start_pos : Z) (i : nat) (key : string) (v : float64) :
  0 <= start_pos ->
  start_pos + 64 <= len data ->
  nth_error metric_keys i = Some key ->
  is_float64 v ->
  isfinite v = true ->
  float_eq_zero v = false ->
  py_slice data (start_pos + 8 * Z.of_nat i) (start_pos + 8 * Z.of_nat i + 8)
  = pack_double order v ->
  exists metrics,
    decode_metrics order data start_pos = Ok (metrics, start_pos + 64)
    /\ dict_get key metrics = Some v.
Proof.
  intros Hpos Hfit Hkey Hv Hfin Hnz Hslot.
  exists (keep_metrics (value_map_at order data start_pos)).
  split; [apply decode_metrics_inside; lia |].
  rewrite keep_metrics_get
    by (rewrite value_map_at_keys; exact metric_keys_nodup).
  rewrite (value_map_at_get order data start_pos i key Hkey).
  unfold slot_value. rewrite Hslot, unpack_pack_double by exact Hv.
  assert (Hk : kept v = true) by (apply kept_iff; split; assumption).
  rewrite Hk, kept_handle_double by exact Hk. reflexivity.
Qed.

Lemma metrics_round_trip_witness :
  exists metrics,
    decode_metrics LittleEndian sample_block 0 = Ok (metrics, 0 + 64)
    /\ dict_get "fdv" metrics = Some 4607182418800017408.
Proof.
  apply (metrics_round_trip LittleEndian sample_block 0 5 "fdv"
           4607182418800017408).
  - lia.
  - vm_compute. discriminate.
  - reflexivity.
  - unfold is_float64. lia.
  - vm_compute. reflexivity.
  - vm_compute. reflexivity.
  - vm_compute. reflexivity.
Defined.

(** ** Text cleaning *)

Lemma in_lstrip (c : Z) (s : ustring) : In c (lstrip s) -> In c s.
Proof.
  induction s as [| d s IH]; simpl; [tauto |].
  destruct (isspace d); [right; apply IH; assumption | simpl; tauto].
Qed.

Lemma in_strip (c : Z) (s : ustring) : In c (strip s) -> In c s.
Proof.
  unfold strip, rstrip. intros H.
  apply in_rev in H. apply in_lstrip in H. apply in_rev in H.
  apply in_lstrip. exact H.
Qed.

Lemma in_before (sep c : Z) (s : ustring) :
  In c (before sep s) -> In c s /\ c <> sep.
Proof.
  induction s as [| d s IH]; simpl; [tauto |].
  destruct (d =? sep) eqn:E; simpl; [tauto |].
  apply Z.eqb_neq in E.
  intros [-> | H]; [tauto |]. destruct (IH H). tauto.
Qed.

Lemma contains_false (c : Z) (s : ustring) :
  contains c s = false <-> (forall d, In d s -> d <> c).
Proof.
  unfold contains. induction s as [| x s IH]; simpl.
  - split; [intros _ d [] | reflexivity].
  - rewrite orb_false_iff, IH, Z.eqb_neq. split.
    + intros [Hx Hs] d [<- | Hd]; [congruence | apply Hs; exact Hd].
    + intros H. split; [intros ->; apply (H x); tauto | intros d Hd; apply H; tauto].
Qed.

Lemma before_absent (sep : Z) (s : ustring) :
  contains sep s = false -> before sep s = s.
Proof.
  unfold contains. induction s as [| x s IH]; simpl; [reflexivity |].
  rewrite orb_false_iff. intros [Hx Hs].
  rewrite Z.eqb_sym, Hx, IH by exact Hs. reflexivity.
Qed.

Lemma filter_all {A : Type} (p : A -> bool) (l : list A) :
  (forall a, In a l -> p a = true) -> filter p l = l.
Proof.
  induction l as [| a l IH]; simpl; intros H; [reflexivity |].
  rewrite (H a) by tauto. rewrite IH; [reflexivity |].
  intros b Hb. apply H. tauto.
Qed.

Lemma lstrip_starts_clean (s : ustring) : starts_clean (lstrip s).
Proof.
  induction s as [| c s IH]; simpl; [exact I |].
  destruct (isspace c) eqn:E; [exact IH | exact E].
Qed.

Lemma lstrip_fixed (s : ustring) : starts_clean s -> lstrip s = s.
Proof.
  destruct s as [| c s]; simpl; [reflexivity |].
  intros H. rewrite H. reflexivity.
Qed.

Lemma lstrip_suffix (s : ustring) : exists w, s = w ++ lstrip s.
Proof.
  induction s as [| c s [w IH]]; simpl.
  - exists []. reflexivity.
  - destruct (isspace c).
    + exists (c :: w). simpl. rewrite <- IH. reflexivity.
    + exists []. reflexivity.
Qed.

Lemma rstrip_prefix (s : ustring) : exists w, s = rstrip s ++ w.
Proof.
  unfold rstrip. destruct (lstrip_suffix (rev s)) as [w Hw].
  exists (rev w).
  rewrite <- rev_app_distr, <- Hw, rev_involutive. reflexivity.
Qed.

Lemma rstrip_starts_clean (s : ustring) :
  starts_clean s -> starts_clean (rstrip s).
Proof.
  intros H. destruct (rstrip_prefix s) as [w Hw].
  destruct (rstrip s) as [| c r]; [exact I |].
  rewrite Hw in H. exact H.
Qed.

Lemma strip_idempotent (s : ustring) : strip (strip s) = strip s.
Proof.
  unfold strip.
  rewrite (lstrip_fixed (rstrip (lstrip s)))
    by (apply rstrip_starts_clean, lstrip_starts_clean).
  unfold rstrip. rewrite rev_involutive.
  rewrite (lstrip_fixed (lstrip (rev (lstrip s))))
    by apply lstrip_starts_clean.
  reflexivity.
Qed.

Lemma clean_string_cleaned (s : ustring) : cleaned_text (clean_string s).
Proof.
  unfold clean_string.
  destruct (negb (truthy s)); [split; [intros c [] | reflexivity] |].
  cbv zeta. split; [| apply strip_idempotent].
  intros c Hc. apply in_strip in Hc.
  destruct (contains at_sign (filter printable s)
            || contains backslash (filter printable s)) eqn:E.
  - apply in_before in Hc. destruct Hc as [Hc Hb].
    apply in_before in Hc. destruct Hc as [Hc Ha].
    apply filter_In in Hc. tauto.
  - apply orb_false_iff in E. destruct E as [Ea Eb].
    rewrite contains_false in Ea, Eb.
    split; [apply filter_In in Hc; tauto |].
    split; [apply Ea | apply Eb]; exact Hc.
Qed.

Lemma clean_string_fixed (s : ustring) : cleaned_text s -> clean_string s = s.
Proof.
  intros [Hall Hstrip]. unfold clean_string.
  destruct s as [| c s]; [reflexivity |].
  cbn [truthy negb]. cbv zeta.
  rewrite (filter_all printable (c :: s)) by (intros a Ha; apply Hall, Ha).
  assert (Ha : contains at_sign (c :: s) = false)
    by (apply contains_false; intros d Hd; apply Hall, Hd).
  assert (Hb : contains backslash (c :: s) = false)
    by (apply contains_false; intros d Hd; apply Hall, Hd).
  rewrite Ha, Hb. exact Hstrip.
Qed.

(** C8. [clean_string] is idempotent: cleaning a cleaned string returns it
    unchanged. *)
Theorem clean_string_idempotent (s : ustring) :
  clean_string (clean_string s) = clean_string s.
Proof.
  apply clean_string_fixed, clean_string_cleaned.
Qed.

(** ** The field decoder *)

(** C4. Wherever a length byte [L] is read, one turn of the field decoder
    moves the cursor by exactly [1 + L], whether the field is accepted or
    rejected; a rejected field leaves the record as it was. *)
Theorem decode_field_advance (data : list byte) (pos : Z) (field : string)
  (pair : record) (b : byte) :
  py_index data pos = Ok b ->
  exists pair',
    decode_field data pos field pair = Ok (pos + 1 + ord_byte b, pair')
    /\ (rejected data pos (ord_byte b) -> pair' = pair).
Proof.
  intros Hread. unfold decode_field. rewrite Hread. cbn [bind]. cbv zeta.
  destruct ((ord_byte b =? 0) || (ord_byte b >? 100)
            || (pos + 1 + ord_byte b >? len data)) eqn:E.
  - exists pair. split; [reflexivity | intros _; reflexivity].
  - eexists. split; [reflexivity |].
    apply orb_false_iff in E. destruct E as [E E3].
    apply orb_false_iff in E. destruct E as [E1 E2].
    apply Z.eqb_neq in E1. rewrite Z.gtb_ltb in E2, E3.
    apply Z.ltb_ge in E2. apply Z.ltb_ge in E3.
    unfold rejected. lia.
Qed.

Lemma decode_field_advance_witness :
  exists pair',
    decode_field [x03; x73; x6f; x6c] 0 "chain" [] = Ok (0 + 1 + ord_byte x03, pair')
    /\ (rejected [x03; x73; x6f; x6c] 0 (ord_byte x03) -> pair' = []).
Proof.
  apply (decode_field_advance [x03; x73; x6f; x6c] 0 "chain" [] x03).
  reflexivity.
Defined.

(** ** The record decoder *)

(** [decode_pair] never raises: its outer handler returns no record. *)
Lemma decode_pair_never_raises (P : platform) (data : list byte) :
  exists r : option record, decode_pair P data = Ok r.
Proof.
  unfold decode_pair. apply try_except_total.
Qed.

(** ** The shape of the numeric keys *)

Lemma numeric_shape_empty (P : platform) : numeric_shape P [].
Proof. intros key x H. discriminate H. Qed.

Lemma numeric_shape_set (P : platform) (k : string) (v : value) (pair : record) :
  well_shaped P k v -> numeric_shape P pair -> numeric_shape P (dict_set k v pair).
Proof.
  intros Hv Hpair key x Hget.
  destruct (string_dec key k) as [-> | Hne].
  - rewrite dict_get_set_same in Hget. injection Hget as <-. exact Hv.
  - rewrite dict_get_set_other in Hget by exact Hne. apply Hpair, Hget.
Qed.

Lemma decode_field_shape (P : platform) (data : list byte) (pos : Z)
  (field : string) (pair : record) (pos' : Z) (pair' : record) :
  (forall x, well_shaped P field x) ->
  decode_field data pos field pair = Ok (pos', pair') ->
  numeric_shape P pair -> numeric_shape P pair'.
Proof.
  intros Hfield Hrun Hpair. unfold decode_field in Hrun.
  apply bind_ok in Hrun. destruct Hrun as [b [_ Hrun]]. cbv zeta in Hrun.
  destruct ((ord_byte b =? 0) || (ord_byte b >? 100)
            || (pos + 1 + ord_byte b >? len data)).
  - injection Hrun as _ <-. exact Hpair.
  - injection Hrun as _ <-.
    destruct (truthy _); [apply numeric_shape_set; auto | exact Hpair].
Qed.

Lemma decode_fields_shape (P : platform) (data : list byte) (fs : list string) :
  Forall (fun field => forall x, well_shaped P field x) fs ->
  forall pos pair pos' pair',
    decode_fields data fs pos pair = Ok (pos', pair') ->
    numeric_shape P pair -> numeric_shape P pair'.
Proof.
  induction 1 as [| field fs Hfield _ IH]; intros pos pair pos' pair' Hrun Hpair.
  - injection Hrun as _ <-. exact Hpair.
  - cbn [decode_fields] in Hrun.
    destruct (pos >=? len data).
    + injection Hrun as _ <-. exact Hpair.
    + apply bind_ok in Hrun. destruct Hrun as [[pos1 pair1] [Hone Hrest]].
      apply (IH pos1 pair1 pos' pair' Hrest).
      apply (decode_field_shape P data pos field pair pos1 pair1 Hfield Hone Hpair).
Qed.

Lemma fields_unconstrained (P : platform) :
  Forall (fun field => forall x, well_shaped P field x) fields.
Proof.
  unfold fields. repeat constructor.
Qed.

Lemma keep_metrics_surviving (value_map : dict float64) (k : string) (v : float64) :
  NoDup (map fst value_map) ->
  dict_get k (keep_metrics value_map) = Some v -> surviving v.
Proof.
  intros Hnd Hget. rewrite keep_metrics_get in Hget by exact Hnd.
  destruct (dict_get k value_map) as [v' |]; [| discriminate Hget].
  destruct (kept v') eqn:Ek; [| discriminate Hget].
  injection Hget as <-. rewrite kept_handle_double by exact Ek.
  exact (proj1 (kept_iff v') Ek).
Qed.

(** Every metric [decode_metrics] returns is a finite float other than
    zero, whatever the cursor. *)
Lemma decode_metrics_surviving (order : byteorder) (data : list byte) (s : Z)
  (metrics : dict float64) (s' : Z) (k : string) (v : float64) :
  decode_metrics order data s = Ok (metrics, s') ->
  dict_get k metrics = Some v -> surviving v.
Proof.
  unfold decode_metrics. intros Hrun Hget.
  destruct (s + 64 >? len data).
  - injection Hrun as <- _. discriminate Hget.
  - unfold unpack_8d in Hrun.
    destruct (len (py_slice data s (s + 64)) =? 64).
    + cbn [bind map try_except] in Hrun. injection Hrun as <- _.
      apply (keep_metrics_surviving _ k v) in Hget; [exact Hget |].
      exact metric_keys_nodup.
    + cbn [bind try_except] in Hrun. injection Hrun as <- _. discriminate Hget.
Qed.

Lemma copy_metric_shape (P : platform) (key : string) (metrics : dict float64)
  (store : float64 -> record -> record) (pair pair' : record) :
  (forall v, dict_get key metrics = Some v ->
             numeric_shape P pair -> numeric_shape P (store v pair)) ->
  copy_metric key metrics store pair = Ok pair' ->
  numeric_shape P pair -> numeric_shape P pair'.
Proof.
  intros Hstore Hrun Hpair. unfold copy_metric, dict_mem, dict_item in Hrun.
  destruct (dict_get key metrics) as [v |] eqn:E.
  - cbn [bind] in Hrun. injection Hrun as <-. apply Hstore; [reflexivity | exact Hpair].
  - injection Hrun as <-. exact Hpair.
Qed.

Lemma emit_metrics_shape (P : platform) (metrics : dict float64)
  (pair pair' : record) :
  (forall k v, dict_get k metrics = Some v -> surviving v) ->
  emit_metrics P metrics pair = Ok pair' ->
  numeric_shape P pair -> numeric_shape P pair'.
Proof.
  intros Hsurv Hrun Hpair. unfold emit_metrics in Hrun.
  destruct (truthy metrics); [| injection Hrun as <-; exact Hpair].
  apply bind_ok in Hrun. destruct Hrun as [p1 [H1 Hrun]].
  apply bind_ok in Hrun. destruct Hrun as [p2 [H2 Hrun]].
  apply bind_ok in Hrun. destruct Hrun as [p3 [H3 Hrun]].
  apply bind_ok in Hrun. destruct Hrun as [p4 [H4 Hrun]].
  apply bind_ok in Hrun. destruct Hrun as [p5 [H5 Hrun]].
  apply bind_ok in Hrun. destruct Hrun as [p6 [H6 Hrun]].
  assert (S1 : numeric_shape P p1).
  { apply (copy_metric_shape P _ _ _ _ _ ) with (3 := Hpair) (2 := H1).
    intros v Hv Hs. apply numeric_shape_set; [| exact Hs].
    shape_rendered v (Hsurv _ _ Hv). }
  assert (S2 : numeric_shape P p2).
  { apply (copy_metric_shape P _ _ _ _ _ ) with (3 := S1) (2 := H2).
    intros v Hv Hs. apply numeric_shape_set; [| exact Hs].
    shape_rendered v (Hsurv _ _ Hv). }
  assert (S3 : numeric_shape P p3).
  { apply (copy_metric_shape P _ _ _ _ _ ) with (3 := S2) (2 := H3).
    intros v Hv Hs. apply numeric_shape_set; [| exact Hs]. shape_free. }
  assert (S4 : numeric_shape P p4).
  { apply (copy_metric_shape P _ _ _ _ _ ) with (3 := S3) (2 := H4).
    intros v Hv Hs. apply numeric_shape_set; [| exact Hs].
    shape_rendered v (Hsurv _ _ Hv). }
  assert (S5 : numeric_shape P p5).
  { apply (copy_metric_shape P _ _ _ _ _ ) with (3 := S4) (2 := H5).
    intros v Hv Hs. apply numeric_shape_set; [| exact Hs].
    shape_rendered v (Hsurv _ _ Hv). }
  assert (S6 : numeric_shape P p6).
  { apply (copy_metric_shape P _ _ _ _ _ ) with (3 := S5) (2 := H6).
    intros v Hv Hs. apply numeric_shape_set; [| exact Hs]. shape_free. }
  destruct (dict_mem "timestamp" metrics); [| injection Hrun as <-; exact S6].
  apply bind_ok in Hrun. destruct Hrun as [ts [_ Hrun]].
  destruct (float_ge_zero ts && float_lt_int ts year_2100);
    [| injection Hrun as <-; exact S6].
  cbv zeta in Hrun.
  assert (S7 : numeric_shape P (dict_set "pairCreatedAt" (VInt (float_trunc ts)) p6)).
  { apply numeric_shape_set; [shape_free | exact S6]. }
  unfold try_except in Hrun.
  match type of Hrun with
  | match ?body with _ => _ end = _ => destruct body as [done | e] eqn:Ebody
  end.
  - injection Hrun as <-.
    apply bind_ok in Ebody. destruct Ebody as [created [_ Ebody]].
    apply bind_ok in Ebody. destruct Ebody as [formatted [_ Ebody]].
    injection Ebody as <-.
    apply numeric_shape_set; [shape_free | exact S7].
  - injection Hrun as <-.
    apply numeric_shape_set; [shape_free | exact S7].
Qed.

(** The mapping that reaches the validation has its numeric keys in the
    shape [emit_metrics] gives them. *)
Lemma build_pair_shape (P : platform) (data : list byte) (pair : record) :
  build_pair P data = Ok pair -> numeric_shape P pair.
Proof.
  unfold build_pair. intros Hrun.
  apply bind_ok in Hrun. destruct Hrun as [[pos pair0] [Hfields Hrun]].
  cbv zeta in Hrun.
  apply bind_ok in Hrun. destruct Hrun as [[metrics pos'] [Hmetrics Hrun]].
  cbv zeta in Hrun.
  apply (emit_metrics_shape P metrics pair0 pair).
  - intros k v. apply (decode_metrics_surviving _ _ _ _ _ k v Hmetrics).
  - exact Hrun.
  - apply (decode_fields_shape P data fields (fields_unconstrained P)
             _ _ _ _ Hfields).
    apply numeric_shape_empty.
Qed.

Lemma ustring_eqb_eq (s t : ustring) : ustring_eqb s t = true <-> s = t.
Proof.
  revert t. induction s as [| c s IH]; intros [| d t]; simpl;
    try (split; [discriminate | discriminate]); [tauto |].
  rewrite andb_true_iff, Z.eqb_eq, IH. split.
  - intros [-> ->]. reflexivity.
  - intros H. injection H as -> ->. tauto.
Qed.

Lemma differs_from_zero_iff (s : ustring) :
  differs_from_zero s = true <-> s <> lit "0".
Proof.
  unfold differs_from_zero. rewrite negb_true_iff.
  destruct (ustring_eqb s (lit "0")) eqn:E.
  - apply ustring_eqb_eq in E. split; [discriminate | congruence].
  - split; [| reflexivity]. intros _ Heq.
    apply ustring_eqb_eq in Heq. congruence.
Qed.

(** ** The validation *)

Lemma text_test_iff (P : platform) (key : string) (pair : record) :
  renders_nonzero P ->
  (forall x, dict_get key pair = Some x -> exists s, x = VStr s /\ rendered P s) ->
  differs_from_zero (py_str (dict_get_default key (VStr (lit "0")) pair)) = true
  <-> dict_mem key pair = true.
Proof.
  intros Hrender Hshape. unfold dict_get_default, dict_mem.
  destruct (dict_get key pair) as [x |].
  - destruct (Hshape x eq_refl) as [s [-> [v [Hv ->]]]]. cbn [py_str].
    split; [reflexivity |]. intros _.
    apply differs_from_zero_iff, Hrender, Hv.
  - cbn [py_str]. split; [| discriminate].
    intros H. apply differs_from_zero_iff in H. congruence.
Qed.

Lemma group_text_present (key inner : string) (pair : record) (t : ustring) :
  group_text key inner pair = Ok t -> dict_mem key pair = true.
Proof.
  unfold group_text, dict_get_default, dict_mem.
  destruct (dict_get key pair) as [x |]; [reflexivity |].
  cbn. discriminate.
Qed.

Lemma group_test_iff (P : platform) (key inner : string) (pair : record) :
  renders_nonzero P ->
  (forall x, dict_get key pair = Some x ->
             exists s, x = VGroup [(inner, s)] /\ rendered P s) ->
  (exists t, group_text key inner pair = Ok t /\ differs_from_zero t = true)
  <-> dict_mem key pair = true.
Proof.
  intros Hrender Hshape. split.
  - intros [t [Ht _]]. apply (group_text_present key inner pair t Ht).
  - unfold group_text, dict_get_default, dict_mem.
    destruct (dict_get key pair) as [x |]; [| discriminate].
    intros _. destruct (Hshape x eq_refl) as [s [-> [v [Hv ->]]]].
    exists (float_str P v). cbn [isinstance_dict group_item].
    unfold dict_item. cbn [dict_get]. rewrite String.eqb_refl.
    split; [reflexivity |]. apply differs_from_zero_iff, Hrender, Hv.
Qed.

(** What it takes for the validation to hand the mapping back: more than
    two keys, and both group subscripts going through. *)
Lemma validate_some (pair r : record) :
  validate pair = Ok (Some r) ->
  r = pair /\ len pair > 2
  /\ dict_mem "volume" pair = true /\ dict_mem "liquidity" pair = true.
Proof.
  unfold validate. intros Hrun.
  destruct (len pair >? 2) eqn:Elen; [| discriminate Hrun].
  cbv zeta in Hrun.
  apply bind_ok in Hrun. destruct Hrun as [volume_h24 [Hvol Hrun]].
  apply bind_ok in Hrun. destruct Hrun as [liquidity_usd [Hliq Hrun]].
  destruct (existsb differs_from_zero _); [| discriminate Hrun].
  injection Hrun as <-.
  rewrite Z.gtb_ltb in Elen. apply Z.ltb_lt in Elen.
  repeat split; try lia.
  - apply (group_text_present _ _ _ _ Hvol).
  - apply (group_text_present _ _ _ _ Hliq).
Qed.

Lemma decode_pair_some (P : platform) (data : list byte) (r : record) :
  decode_pair P data = Ok (Some r) ->
  build_pair P data = Ok r /\ validate r = Ok (Some r).
Proof.
  unfold decode_pair, try_except. intros Hrun.
  destruct (bind (build_pair P data) (fun pair => validate pair))
    as [found | e] eqn:Ebody; [| discriminate Hrun].
  injection Hrun as ->.
  apply bind_ok in Ebody. destruct Ebody as [pair [Hbuild Hval]].
  destruct (validate_some pair r Hval) as [-> _]. tauto.
Qed.

(** ** Totality of the record decoder *)

Lemma len_py_slice_le {A : Type} (l : list A) (i j : Z) :
  len (py_slice l i j) <= len l.
Proof.
  unfold py_slice, len. rewrite length_firstn, length_skipn. lia.
Qed.

(** A buffer of fewer than 64 bytes holds no metrics block, wherever the
    cursor stands. *)
Lemma decode_metrics_short_data (order : byteorder) (data : list byte) (s : Z) :
  len data < 64 -> decode_metrics order data s = Ok ([], s).
Proof.
  intros Hshort. unfold decode_metrics.
  destruct (s + 64 >? len data); [reflexivity |].
  unfold unpack_8d.
  pose proof (len_py_slice_le data s (s + 64)) as Hle.
  destruct (len (py_slice data s (s + 64)) =? 64) eqn:E;
    [apply Z.eqb_eq in E; lia | reflexivity].
Qed.

Lemma decode_field_keys (data : list byte) (pos : Z) (field : string)
  (pair : record) (pos' : Z) (pair' : record) (k : string) :
  decode_field data pos field pair = Ok (pos', pair') ->
  dict_mem k pair' = true -> dict_mem k pair = true \/ k = field.
Proof.
  intros Hrun Hmem. unfold decode_field in Hrun.
  apply bind_ok in Hrun. destruct Hrun as [b [_ Hrun]]. cbv zeta in Hrun.
  destruct ((ord_byte b =? 0) || (ord_byte b >? 100)
            || (pos + 1 + ord_byte b >? len data)).
  - injection Hrun as _ <-. left. exact Hmem.
  - injection Hrun as _ <-.
    destruct (truthy _); [| left; exact Hmem].
    destruct (string_dec k field) as [-> | Hne]; [right; reflexivity |].
    rewrite dict_mem_set_other in Hmem by exact Hne. left. exact Hmem.
Qed.

(** The field loop adds no key besides the names of its fields. *)
Lemma decode_fields_keys (data : list byte) (fs : list string) (k : string) :
  forall pos pair pos' pair',
    decode_fields data fs pos pair = Ok (pos', pair') ->
    dict_mem k pair' = true -> dict_mem k pair = true \/ In k fs.
Proof.
  induction fs as [| field fs IH]; intros pos pair pos' pair' Hrun Hmem.
  - injection Hrun as _ <-. left. exact Hmem.
  - cbn [decode_fields] in Hrun.
    destruct (pos >=? len data).
    + injection Hrun as _ <-. left. exact Hmem.
    + apply bind_ok in Hrun. destruct Hrun as [[pos1 pair1] [Hone Hrest]].
      destruct (IH pos1 pair1 pos' pair' Hrest Hmem) as [H1 | Hin];
        [| right; right; exact Hin].
      destruct (decode_field_keys _ _ _ _ _ _ k Hone H1) as [H0 | ->];
        [left; exact H0 | right; left; reflexivity].
Qed.

(** A slice of fewer than 64 bytes never yields a record. *)
Lemma decode_pair_short (P : platform) (data : list byte) :
  len data < 64 -> decode_pair P data = Ok None.
Proof.
  intros Hshort.
  destruct (decode_pair_never_raises P data) as [[r |] Hr]; [| exact Hr].
  exfalso.
  apply decode_pair_some in Hr. destruct Hr as [Hbuild Hval].
  apply validate_some in Hval. destruct Hval as [_ [_ [Hvol _]]].
  unfold build_pair in Hbuild.
  apply bind_ok in Hbuild. destruct Hbuild as [[pos pair0] [Hfields Hbuild]].
  cbv zeta in Hbuild.
  rewrite decode_metrics_short_data in Hbuild by exact Hshort.
  cbn in Hbuild. injection Hbuild as ->.
  destruct (decode_fields_keys data fields "volume" _ _ _ _ Hfields Hvol)
    as [H | H].
  - discriminate H.
  - unfold fields in H. simpl in H. intuition discriminate.
Qed.

(** C3. [decode_pair] is total and never raises: on every byte slice, of
    any length, it returns a record or no record; on the empty slice and on
    every slice shorter than 64 bytes it returns no record. *)
Theorem decode_pair_total (P : platform) (data : list byte) :
  exists r : option record,
    decode_pair P data = Ok r /\ (len data < 64 -> r = None).
Proof.
  destruct (decode_pair_never_raises P data) as [r Hr].
  exists r. split; [exact Hr |].
  intros Hshort. rewrite (decode_pair_short P data Hshort) in Hr.
  injection Hr as <-. reflexivity.
Qed.

(** C10. On the mapping [decode_pair] validates, a record that is returned
    holds at least one of price, priceUsd, volume, liquidity; and, [str]
    never rendering a surviving float as [0], each of the four tests
    "differs from the string 0" succeeds exactly when its key is present. *)
Theorem numeric_key_present (P : platform) (data : list byte) (pair : record) :
  build_pair P data = Ok pair ->
  (forall r, decode_pair P data = Ok (Some r) ->
     r = pair
     /\ (dict_mem "price" r = true \/ dict_mem "priceUsd" r = true
         \/ dict_mem "volume" r = true \/ dict_mem "liquidity" r = true))
  /\ (renders_nonzero P ->
      (differs_from_zero (price_text pair) = true
       <-> dict_mem "price" pair = true)
      /\ (differs_from_zero (price_usd_text pair) = true
          <-> dict_mem "priceUsd" pair = true)
      /\ ((exists t, group_text "volume" "h24" pair = Ok t
                     /\ differs_from_zero t = true)
          <-> dict_mem "volume" pair = true)
      /\ ((exists t, group_text "liquidity" "usd" pair = Ok t
                     /\ differs_from_zero t = true)
          <-> dict_mem "liquidity" pair = true)).
Proof.
  intros Hbuild.
  pose proof (build_pair_shape P data pair Hbuild) as Hshape.
  split.
  - intros r Hr. apply decode_pair_some in Hr. destruct Hr as [Hb Hv].
    assert (r = pair) by congruence. subst r.
    split; [reflexivity |].
    apply validate_some in Hv. tauto.
  - intros Hrender. split; [| split; [| split]].
    + apply (text_test_iff P "price" pair Hrender).
      intros x Hx. exact (Hshape "price" x Hx).
    + apply (text_test_iff P "priceUsd" pair Hrender).
      intros x Hx. exact (Hshape "priceUsd" x Hx).
    + apply (group_test_iff P "volume" "h24" pair Hrender).
      intros x Hx. exact (Hshape "volume" x Hx).
    + apply (group_test_iff P "liquidity" "usd" pair Hrender).
      intros x Hx. exact (Hshape "liquidity" x Hx).
Qed.

Lemma reference_renders_nonzero : renders_nonzero reference_platform.
Proof.
  intros v _ H. change (102 :: decimal v = [48]) in H. discriminate H.
Qed.

Lemma numeric_key_present_witness :
  differs_from_zero (price_text full_record) = true
  <-> dict_mem "price" full_record = true.
Proof.
  refine (proj1 (proj2
            (numeric_key_present reference_platform full_slice full_record _)
            reference_renders_nonzero)).
  vm_compute. reflexivity.
Defined.

(** [decode_pair] returns a record exactly when the mapping has more than
    two keys and holds both the volume and the liquidity group. *)
Lemma decode_pair_returns_iff (P : platform) (data : list byte) (r : record) :
  renders_nonzero P ->
  decode_pair P data = Ok (Some r)
  <-> build_pair P data = Ok r /\ len r > 2
      /\ dict_mem "volume" r = true /\ dict_mem "liquidity" r = true.
Proof.
  intros Hrender. split.
  - intros Hrun. apply decode_pair_some in Hrun. destruct Hrun as [Hb Hv].
    apply validate_some in Hv. tauto.
  - intros [Hbuild [Hlen [Hvol Hliq]]].
    pose proof (build_pair_shape P data r Hbuild) as Hshape.
    apply (group_test_iff P "volume" "h24" r Hrender) in Hvol;
      [| intros x Hx; exact (Hshape "volume" x Hx)].
    apply (group_test_iff P "liquidity" "usd" r Hrender) in Hliq;
      [| intros x Hx; exact (Hshape "liquidity" x Hx)].
    destruct Hvol as [tv [Hv1 Hv2]]. destruct Hliq as [tl [Hl1 Hl2]].
    unfold decode_pair. rewrite Hbuild. cbn [bind]. unfold validate.
    replace (len r >? 2) with true
      by (symmetry; rewrite Z.gtb_ltb; apply Z.ltb_lt; lia).
    cbv zeta. rewrite Hv1, Hl1. cbn [bind existsb].
    rewrite Hv2, !orb_true_r. reflexivity.
Qed.

(** C1, at an input where the source departs from it.  [price_only_slice]
    decodes to a mapping of seven keys with a price, which the claim
    accepts; the validation then subscripts the empty default of the
    absent volume group, raises [KeyError], and [decode_pair] returns no
    record.  This holds on every platform. *)
Theorem price_without_volume_is_dropped (P : platform) :
  exists pair,
    build_pair P price_only_slice = Ok pair
    /\ len pair = 7
    /\ dict_get "price" pair = Some (VStr (float_str P mirror_value))
    /\ validate pair = Raise (KeyError "h24")
    /\ decode_pair P price_only_slice = Ok None.
Proof.
  destruct P as [order render format].
  eexists. split; [destruct order; vm_compute; reflexivity |].
  repeat split; destruct order; vm_compute; reflexivity.
Qed.

(** ** The frame scanner *)

Lemma find_from_range (l sub : list byte) (i : Z) :
  find_from l sub i = -1 \/ i <= find_from l sub i.
Proof.
  revert i. induction l as [| b l IH]; intros i; cbn [find_from].
  - destruct (startswith [] sub); [right; lia | left; reflexivity].
  - destruct (startswith (b :: l) sub); [right; lia |].
    destruct (IH (i + 1)) as [H | H]; [left; exact H | right; lia].
Qed.

(** [find] answers with the first place at which the token occurs. *)
Lemma find_from_first (l sub : list byte) (i : Z) :
  find_from l sub i <> -1 ->
  startswith (skipn (Z.to_nat (find_from l sub i - i)) l) sub = true
  /\ forall j, (j < Z.to_nat (find_from l sub i - i))%nat ->
               startswith (skipn j l) sub = false.
Proof.
  revert i. induction l as [| b l IH]; intros i; cbn [find_from].
  - destruct (startswith [] sub) eqn:E; [| congruence].
    intros _. rewrite Z.sub_diag. simpl. split; [exact E | intros j Hj; lia].
  - destruct (startswith (b :: l) sub) eqn:E.
    + intros _. rewrite Z.sub_diag. simpl. split; [exact E | intros j Hj; lia].
    + intros Hfound. destruct (IH (i + 1) Hfound) as [Hat Hbefore].
      destruct (find_from_range l sub (i + 1)) as [Hr | Hr]; [congruence |].
      replace (Z.to_nat (find_from l sub (i + 1) - i))
        with (S (Z.to_nat (find_from l sub (i + 1) - (i + 1)))) by lia.
      split; [exact Hat |].
      intros [| j] Hj; [exact E | apply Hbefore; lia].
Qed.

Lemma div_up_step (n size : nat) :
  (0 < n)%nat -> (0 < size)%nat ->
  ((n + (size - 1)) / size = S ((n - size + (size - 1)) / size))%nat.
Proof.
  intros Hn Hsize.
  replace (n + (size - 1))%nat with ((n - 1) + 1 * size)%nat by lia.
  rewrite Nat.div_add by lia.
  destruct (Nat.le_gt_cases n size) as [Hle | Hgt].
  - replace (n - size)%nat with 0%nat by lia.
    rewrite !Nat.div_small by lia. reflexivity.
  - replace (n - size + (size - 1))%nat with (n - 1)%nat by lia. lia.
Qed.

Lemma slices_nil (size : nat) : (0 < size)%nat -> slices size [] = [].
Proof.
  intros Hsize. unfold slices. simpl List.length.
  rewrite Nat.div_small by lia. reflexivity.
Qed.

Lemma slices_step (size : nat) (l : list byte) :
  (0 < size)%nat -> l <> [] ->
  slices size l = firstn size l :: slices size (skipn size l).
Proof.
  intros Hsize Hl. unfold slices.
  assert (Hlen : (0 < List.length l)%nat) by (destruct l; [congruence | simpl; lia]).
  rewrite (div_up_step (List.length l) size Hlen Hsize), length_skipn.
  rewrite <- cons_seq, <- seq_shift, map_cons, map_map.
  f_equal. apply map_ext. intros i.
  rewrite skipn_skipn. f_equal. f_equal. lia.
Qed.

Lemma decoded_records_cons (P : platform) (chunk : list byte)
  (chunks : list (list byte)) :
  decoded_records P (chunk :: chunks)
  = match decode_pair P chunk with
    | Ok (Some p) => if truthy p then [p] else []
    | _ => []
    end ++ decoded_records P chunks.
Proof. reflexivity. Qed.

(** The loop with enough fuel appends, to what it has collected, the
    records of the slices that start at its cursor. *)
Lemma scan_slices_collects (P : platform) (message : list byte) (fuel : nat) :
  forall pos pairs,
    0 <= pos ->
    len message - pos < Z.of_nat fuel ->
    scan_slices fuel P message pos pairs
    = Ok (pairs ++ decoded_records P
                     (slices (Z.to_nat 512) (skipn (Z.to_nat pos) message))).
Proof.
  assert (Hsize : (0 < Z.to_nat 512)%nat) by lia.
  induction fuel as [| fuel IH]; intros pos pairs Hpos Hfuel.
  - cbn [scan_slices].
    rewrite skipn_all2 by (unfold len in Hfuel; lia).
    rewrite slices_nil by exact Hsize. cbn. rewrite app_nil_r. reflexivity.
  - cbn [scan_slices].
    destruct (pos <? len message) eqn:E.
    + apply Z.ltb_lt in E. cbv zeta.
      rewrite py_slice_window by lia.
      rewrite (slices_step (Z.to_nat 512) (skipn (Z.to_nat pos) message) Hsize).
      2:{ intros Hnil. apply (f_equal (@List.length byte)) in Hnil.
          rewrite length_skipn in Hnil. unfold len in E. simpl in Hnil. lia. }
      rewrite decoded_records_cons, skipn_skipn.
      replace (Z.to_nat 512 + Z.to_nat pos)%nat with (Z.to_nat (pos + 512)) by lia.
      destruct (decode_pair_never_raises P
                  (firstn (Z.to_nat 512) (skipn (Z.to_nat pos) message)))
        as [found Hfound].
      rewrite Hfound. cbn [bind].
      rewrite IH by lia.
      destruct found as [p |]; [destruct (truthy p) |];
        rewrite <- ?app_assoc; reflexivity.
    + apply Z.ltb_ge in E.
      rewrite skipn_all2 by (unfold len in E; lia).
      rewrite slices_nil by exact Hsize. cbn. rewrite app_nil_r. reflexivity.
Qed.

(** A frame with the header whose token starts at [start] is scanned from
    [start + 5] on. *)
Lemma scan_message_at (P : platform) (message : list byte) (start : Z) :
  startswith message magic_header = true ->
  find message pairs_token = start ->
  0 <= start ->
  scan_message P message
  = Ok (Some (decoded_records P
                (slices (Z.to_nat 512) (skipn (Z.to_nat (start + 5)) message)))).
Proof.
  intros Hheader Hfind Hstart. unfold scan_message.
  rewrite Hheader, Hfind. cbn [negb].
  destruct (start =? -1) eqn:E; [apply Z.eqb_eq in E; lia |].
  rewrite scan_slices_collects; [reflexivity | lia | unfold len; lia].
Qed.

(** C2, as the source has it.  For a frame that starts with the header and
    holds the token, the batch is the records, in order and empty results
    dropped, of the consecutive 512-byte slices (the last one possibly
    shorter) of the bytes that begin right after the end of the token,
    that is 5 bytes after its first byte. *)
Theorem scan_message_batch (P : platform) (message : list byte) :
  startswith message magic_header = true ->
  find message pairs_token <> -1 ->
  scan_message P message
  = Ok (Some (decoded_records P (slices 512 (section_after_token 0 message)))).
Proof.
  intros Hheader Htoken.
  assert (Hfound : 0 <= find message pairs_token).
  { destruct (find_from_range message pairs_token 0) as [H | H];
      [unfold find in Htoken; congruence | exact H]. }
  rewrite (scan_message_at P message _ Hheader eq_refl Hfound).
  unfold section_after_token.
  change (List.length pairs_token) with 5%nat.
  replace (Z.to_nat (find message pairs_token) + 5 + 0)%nat
    with (Z.to_nat (find message pairs_token + 5)) by lia.
  reflexivity.
Qed.

Lemma scan_message_batch_witness :
  scan_message reference_platform sample_frame
  = Ok (Some (decoded_records reference_platform
                (slices 512 (section_after_token 0 sample_frame)))).
Proof.
  apply (scan_message_batch reference_platform sample_frame).
  - reflexivity.
  - vm_compute. discriminate.
Defined.

(** C2 as the claim words it, with the slices beginning 5 bytes after the
    end of the token, fails: on [sample_frame] the scanner returns the one
    record of the slice that follows the token, while the bytes 5 further
    on decode to nothing. *)
Lemma scan_message_not_five_after_token :
  ~ (forall (P : platform) (message : list byte),
       startswith message magic_header = true ->
       find message pairs_token <> -1 ->
       scan_message P message
       = Ok (Some (decoded_records P
                     (slices 512 (section_after_token 5 message))))).
Proof.
  intros Hclaim.
  assert (Hfound : find sample_frame pairs_token <> -1)
    by (vm_compute; discriminate).
  specialize (Hclaim reference_platform sample_frame eq_refl Hfound).
  vm_compute in Hclaim. discriminate Hclaim.
Qed.

(** The same disagreement on every platform whose [str] never renders a
    surviving float as [0]: one record against none. *)
Lemma sample_frame_batches (P : platform) :
  renders_nonzero P ->
  (exists r, scan_message P sample_frame = Ok (Some [r]))
  /\ decoded_records P (slices 512 (section_after_token 5 sample_frame)) = [].
Proof.
  intros Hrender. split.
  - assert (Hdec : exists r, decode_pair P full_slice = Ok (Some r) /\ truthy r = true).
    { destruct P as [order render format].
      eexists. split.
      - apply (decode_pair_returns_iff _ _ _ Hrender).
        split; [destruct order; vm_compute; reflexivity |].
        repeat split; destruct order; vm_compute; reflexivity.
      - reflexivity. }
    destruct Hdec as [r [Hr Ht]]. exists r.
    rewrite (scan_message_at P sample_frame 8) by (vm_compute; first [reflexivity | discriminate]).
    change (slices (Z.to_nat 512) (skipn (Z.to_nat (8 + 5)) sample_frame))
      with [full_slice].
    unfold decoded_records. cbn [flat_map]. rewrite Hr, Ht. reflexivity.
  - destruct P as [order render format].
    destruct order; vm_compute; reflexivity.
Qed.

(** ** The reconnect loops *)

Lemma sleeps_app (e1 e2 : list event) : sleeps (e1 ++ e2) = sleeps e1 ++ sleeps e2.
Proof. unfold sleeps. apply flat_map_app. Qed.

Lemma handle_message_no_sleep (P : platform) (m : message) :
  sleeps (handle_message P m) = [].
Proof.
  destruct m as [s | data]; unfold handle_message.
  - destruct (ustring_eqb s (lit "ping")); reflexivity.
  - destruct (scan_message P data) as [[pairs |] | e]; try reflexivity.
    destruct (truthy pairs); reflexivity.
Qed.

Lemma session_no_sleep (P : platform) (inbox : list message) :
  sleeps (flat_map (handle_message P) inbox) = [].
Proof.
  induction inbox as [| m inbox IH]; [reflexivity |].
  cbn [flat_map]. rewrite sleeps_app, handle_message_no_sleep, IH. reflexivity.
Qed.

(** Every wait that follows a refused connection lasts 1, however many
    refusals came before: [connect_to_dexscreener] catches the failure
    itself and never hands it to the backoff of [main]. *)
Lemma connection_failures_wait_one (P : platform) (attempts : list attempt) :
  sleeps (main P [Connects attempts]) = repeat 1 (failures attempts).
Proof.
  unfold main. cbn [main_loop connect_to_dexscreener].
  induction attempts as [| a attempts IH]; [reflexivity |].
  destruct a as [| inbox]; cbn [reconnect_loop].
  - change (sleeps (Slept 1 :: reconnect_loop P attempts))
      with (1 :: sleeps (reconnect_loop P attempts)).
    rewrite IH. reflexivity.
  - rewrite sleeps_app, session_no_sleep, IH. reflexivity.
Qed.

(** C9, at an input where the source departs from it.  After three refused
    connections in a row the waits are 1, 1, 1, where exponential backoff
    prescribes 1, 2, 4. *)
Theorem three_failures_wait_one_each (P : platform) :
  sleeps (main P [Connects [ConnectFails; ConnectFails; ConnectFails]])
  = [1; 1; 1]
  /\ backoff_waits 3 1 = [1; 2; 4].
Proof.
  rewrite connection_failures_wait_one.
  split; reflexivity.
Qed.

(** The backoff of [main] is reached only when a call fails before its
    loop starts, and then it does double up to the cap. *)
Lemma setup_failures_back_off (P : platform) (n : nat) (backoff : Z) :
  sleeps (main_loop P (repeat SetupFails n) backoff) = backoff_waits n backoff.
Proof.
  revert backoff. induction n as [| n IH]; intros backoff; [reflexivity |].
  cbn [repeat main_loop connect_to_dexscreener app backoff_waits].
  change (sleeps (Slept backoff
                  :: main_loop P (repeat SetupFails n) (Z.min (backoff * 2) 60)))
    with (backoff
          :: sleeps (main_loop P (repeat SetupFails n) (Z.min (backoff * 2) 60))).
  rewrite IH. reflexivity.
Qed.

(* ================================================================== *)
(** * Further properties of the decoder *)

(** ** The metrics block, exactly *)

Lemma dict_set_fresh {V : Type} (k : string) (v : V) (d : dict V) :
  ~ In k (map fst d) -> dict_set k v d = d ++ [(k, v)].
Proof.
  induction d as [| [k' v'] d IH]; simpl; intros Hfresh; [reflexivity |].
  destruct (String.eqb k' k) eqn:E.
  - apply String.eqb_eq in E. tauto.
  - rewrite IH by tauto. reflexivity.
Qed.

Lemma fold_keep_filter (value_map acc : dict float64) :
  NoDup (map fst acc ++ map fst value_map) ->
  fold_left
    (fun metrics kv =>
       let cleaned := handle_double (snd kv) in
       if negb (float_eq_zero cleaned) then dict_set (fst kv) cleaned metrics
       else metrics)
    value_map acc
  = acc ++ filter (fun kv => kept (snd kv)) value_map.
Proof.
  revert acc. induction value_map as [| [k v] vm IH]; intros acc Hnd.
  - simpl. rewrite app_nil_r. reflexivity.
  - cbn [fold_left filter fst snd]. cbv zeta.
    change (negb (float_eq_zero (handle_double v))) with (kept v).
    destruct (kept v) eqn:Ek.
    + rewrite kept_handle_double by exact Ek.
      assert (Hfresh : ~ In k (map fst acc)).
      { intros Hin. apply NoDup_remove_2 in Hnd. apply Hnd.
        apply in_or_app. left. exact Hin. }
      rewrite dict_set_fresh by exact Hfresh.
      rewrite IH.
      * rewrite <- app_assoc. reflexivity.
      * rewrite map_app. cbn [map fst]. rewrite <- app_assoc. exact Hnd.
    + apply IH. cbn [map fst] in Hnd. apply NoDup_remove_1 in Hnd. exact Hnd.
Qed.

Lemma keep_metrics_filter (value_map : dict float64) :
  NoDup (map fst value_map) ->
  keep_metrics value_map = filter (fun kv => kept (snd kv)) value_map.
Proof.
  intros Hnd. unfold keep_metrics. rewrite fold_keep_filter; [reflexivity |].
  exact Hnd.
Qed.

(** With the block inside the buffer, the metrics are the seven named
    slots, in slot order, with every slot that is not finite or is zero
    left out, each value exactly as it was unpacked. *)
Theorem decode_metrics_filters (order : byteorder) (data : list byte)
  (start_pos : Z) :
  0 <= start_pos ->
  start_pos + 64 <= len data ->
  decode_metrics order data start_pos
  = Ok (filter (fun kv => isfinite (snd kv) && negb (float_eq_zero (snd kv)))
          (value_map_at order data start_pos),
        start_pos + 64).
Proof.
  intros Hpos Hfit.
  rewrite decode_metrics_inside by assumption.
  rewrite keep_metrics_filter
    by (rewrite value_map_at_keys; exact metric_keys_nodup).
  f_equal. f_equal. apply filter_ext. intros [k v]. cbn [snd].
  unfold kept, handle_double.
  destruct (isfinite v); [reflexivity |].
  change (float_eq_zero pos_zero) with true. reflexivity.
Qed.

Lemma decode_metrics_filters_witness :
  decode_metrics LittleEndian sample_block 0
  = Ok (filter (fun kv => isfinite (snd kv) && negb (float_eq_zero (snd kv)))
          (value_map_at LittleEndian sample_block 0),
        0 + 64).
Proof.
  apply (decode_metrics_filters LittleEndian sample_block 0).
  - lia.
  - vm_compute. discriminate.
Defined.

(** Whatever the cursor, negative ones included, [decode_metrics] returns
    without raising, and either leaves the cursor where it was with no
    metrics or moves it by 64 with the block inside the buffer. *)
Theorem decode_metrics_any_cursor (order : byteorder) (data : list byte)
  (start_pos : Z) :
  exists metrics pos,
    decode_metrics order data start_pos = Ok (metrics, pos)
    /\ ((pos = start_pos /\ metrics = [])
        \/ (pos = start_pos + 64 /\ start_pos + 64 <= len data)).
Proof.
  unfold decode_metrics.
  destruct (start_pos + 64 >? len data) eqn:E.
  - exists [], start_pos. split; [reflexivity | left; split; reflexivity].
  - rewrite Z.gtb_ltb in E. apply Z.ltb_ge in E.
    unfold unpack_8d.
    destruct (len (py_slice data start_pos (start_pos + 64)) =? 64).
    + cbn [bind map try_except]. eexists. eexists.
      split; [reflexivity | right; split; [reflexivity | exact E]].
    + exists [], start_pos. split; [reflexivity | left; split; reflexivity].
Qed.

(** The slice taken from a cursor between -64 and -1 wraps round the end
    of the buffer and is too short to unpack: such a cursor always gives
    no metrics and comes back unchanged. *)
Theorem decode_metrics_wrapping_cursor (order : byteorder) (data : list byte)
  (start_pos : Z) :
  -64 <= start_pos < 0 ->
  decode_metrics order data start_pos = Ok ([], start_pos).
Proof.
  intros Hrange. unfold decode_metrics.
  destruct (start_pos + 64 >? len data) eqn:E; [reflexivity |].
  rewrite Z.gtb_ltb in E. apply Z.ltb_ge in E.
  unfold unpack_8d.
  assert (Hlen : len (py_slice data start_pos (start_pos + 64)) < 64).
  { unfold py_slice, slice_bound, len in *.
    destruct (start_pos <? 0) eqn:E1; [| apply Z.ltb_ge in E1; lia].
    destruct (start_pos + 64 <? 0) eqn:E2; [apply Z.ltb_lt in E2; lia |].
    rewrite length_firstn, length_skipn. lia. }
  destruct (len (py_slice data start_pos (start_pos + 64)) =? 64) eqn:E64;
    [apply Z.eqb_eq in E64; lia | reflexivity].
Qed.

Lemma decode_metrics_wrapping_cursor_witness :
  decode_metrics LittleEndian sample_block (-64) = Ok ([], -64).
Proof.
  apply (decode_metrics_wrapping_cursor LittleEndian sample_block (-64)). lia.
Defined.

Lemma filter_keys_incl {V : Type} (p : string * V -> bool) (d : dict V)
  (k : string) :
  In k (map fst (filter p d)) -> In k (map fst d).
Proof.
  intros Hin. apply in_map_iff in Hin. destruct Hin as [kv [<- Hkv]].
  apply filter_In in Hkv. apply in_map. tauto.
Qed.

Lemma filter_keys_nodup {V : Type} (p : string * V -> bool) (d : dict V) :
  NoDup (map fst d) -> NoDup (map fst (filter p d)).
Proof.
  induction d as [| [k v] d IH]; simpl; intros Hnd; [constructor |].
  inversion Hnd as [| ? ? Hnotin Hnd']; subst.
  destruct (p (k, v)); [| apply IH; exact Hnd'].
  cbn [map fst]. constructor; [| apply IH; exact Hnd'].
  intros Hin. apply Hnotin. apply (filter_keys_incl p d k Hin).
Qed.

(** Whatever the cursor, the metrics returned hold no name twice, only
    names of the seven slots, and only finite values other than zero. *)
Theorem decode_metrics_sound (order : byteorder) (data : list byte)
  (start_pos : Z) (metrics : dict float64) (pos : Z) :
  decode_metrics order data start_pos = Ok (metrics, pos) ->
  NoDup (map fst metrics)
  /\ Forall (fun kv => In (fst kv) metric_keys /\ surviving (snd kv)) metrics.
Proof.
  unfold decode_metrics. intros Hrun.
  assert (Hempty : NoDup (map fst (@nil (string * float64)))
                   /\ Forall (fun kv => In (fst kv) metric_keys
                                        /\ surviving (snd kv)) [])
    by (split; constructor).
  destruct (start_pos + 64 >? len data).
  - injection Hrun as <- _. exact Hempty.
  - unfold unpack_8d in Hrun.
    destruct (len (py_slice data start_pos (start_pos + 64)) =? 64).
    + cbn [bind map try_except] in Hrun. injection Hrun as <- _.
      rewrite keep_metrics_filter by exact metric_keys_nodup.
      split.
      * apply filter_keys_nodup. exact metric_keys_nodup.
      * apply Forall_forall. intros [k v] Hin. apply filter_In in Hin.
        destruct Hin as [Hin Hk]. cbn [fst snd] in *. split.
        -- apply (in_map fst) in Hin. exact Hin.
        -- exact (proj1 (kept_iff v) Hk).
    + cbn [bind try_except] in Hrun. injection Hrun as <- _. exact Hempty.
Qed.

Lemma decode_metrics_sound_witness :
  NoDup (map fst (filter (fun kv => kept (snd kv))
                    (value_map_at LittleEndian sample_block 0)))
  /\ Forall (fun kv => In (fst kv) metric_keys /\ surviving (snd kv))
       (filter (fun kv => kept (snd kv))
          (value_map_at LittleEndian sample_block 0)).
Proof.
  apply (decode_metrics_sound LittleEndian sample_block 0 _ 64).
  vm_compute. reflexivity.
Defined.

(** ** What [clean_string] returns *)

Lemma printable_range (c : Z) :
  printable c = true <-> (32 <= c < 127) \/ c = 9.
Proof.
  unfold printable.
  rewrite orb_true_iff, andb_true_iff, Z.leb_le, Z.ltb_lt, Z.eqb_eq. tauto.
Qed.

Lemma strip_fixed_ends (s : ustring) :
  strip s = s <-> starts_clean s /\ starts_clean (rev s).
Proof.
  split.
  - intros Hfix. split.
    + rewrite <- Hfix. unfold strip.
      apply rstrip_starts_clean, lstrip_starts_clean.
    + rewrite <- Hfix. unfold strip, rstrip. rewrite rev_involutive.
      apply lstrip_starts_clean.
  - intros [Hhead Htail]. unfold strip, rstrip.
    rewrite (lstrip_fixed s Hhead), (lstrip_fixed (rev s) Htail).
    apply rev_involutive.
Qed.

(** Every character [clean_string] returns is printable ASCII or a tab and
    is neither [@] nor a backslash, and the result neither begins nor ends
    with white space. *)
Theorem clean_string_output (s : ustring) :
  (forall c, In c (clean_string s) ->
     ((32 <= c < 127) \/ c = 9) /\ c <> 64 /\ c <> 92)
  /\ starts_clean (clean_string s)
  /\ starts_clean (rev (clean_string s)).
Proof.
  destruct (clean_string_cleaned s) as [Hall Hstrip].
  split; [| apply strip_fixed_ends; exact Hstrip].
  intros c Hc. destruct (Hall c Hc) as [Hp [Ha Hb]].
  split; [apply printable_range; exact Hp | split; assumption].
Qed.

(** A non-marker printable text with no white space at either end goes
    through [clean_string] unchanged. *)
Theorem clean_string_keeps_clean (s : ustring) :
  (forall c, In c s -> ((32 <= c < 127) \/ c = 9) /\ c <> 64 /\ c <> 92) ->
  starts_clean s ->
  starts_clean (rev s) ->
  clean_string s = s.
Proof.
  intros Hall Hhead Htail. apply clean_string_fixed. split.
  - intros c Hc. destruct (Hall c Hc) as [Hp [Ha Hb]].
    split; [apply printable_range; exact Hp | split; assumption].
  - apply strip_fixed_ends. split; assumption.
Qed.

Lemma clean_string_keeps_clean_witness :
  clean_string (lit "So11 1112") = lit "So11 1112".
Proof.
  apply (clean_string_keeps_clean (lit "So11 1112")).
  - intros c Hc. vm_compute in Hc.
    repeat (destruct Hc as [<- | Hc]; [lia |]). destruct Hc.
  - reflexivity.
  - reflexivity.
Defined.

Lemma before_app_absent (sep : Z) (a b : ustring) :
  contains sep a = false -> before sep (a ++ b) = a ++ before sep b.
Proof.
  unfold contains. induction a as [| x a IH]; simpl; [reflexivity |].
  rewrite orb_false_iff. intros [Hx Ha].
  rewrite Z.eqb_sym, Hx, IH by exact Ha. reflexivity.
Qed.

Lemma contains_app (c : Z) (a b : ustring) :
  contains c (a ++ b) = contains c a || contains c b.
Proof. unfold contains. apply existsb_app. Qed.

Lemma contains_filter_absent (c : Z) (p : Z -> bool) (s : ustring) :
  contains c s = false -> contains c (filter p s) = false.
Proof.
  rewrite !contains_false. intros H d Hd. apply filter_In in Hd. apply H. tauto.
Qed.

(** The text after the first [@] or backslash never matters: a marker and
    all that follows it are cut off. *)
Theorem clean_string_truncates (s t : ustring) (marker : Z) :
  marker = at_sign \/ marker = backslash ->
  contains at_sign s = false ->
  contains backslash s = false ->
  clean_string (s ++ marker :: t) = clean_string s.
Proof.
  intros Hmarker Hat Hbs.
  assert (Hfat := contains_filter_absent at_sign printable s Hat).
  assert (Hfbs := contains_filter_absent backslash printable s Hbs).
  assert (Hleft : clean_string s = strip (filter printable s)).
  { unfold clean_string. destruct s as [| c s]; [reflexivity |].
    cbn [truthy negb]. cbv zeta. rewrite Hfat, Hfbs. reflexivity. }
  rewrite Hleft. unfold clean_string.
  replace (truthy (s ++ marker :: t)) with true by (destruct s; reflexivity).
  cbn [negb]. cbv zeta.
  rewrite filter_app.
  assert (Hcut :
    before backslash
      (before at_sign (filter printable s ++ filter printable (marker :: t)))
    = filter printable s
    /\ contains at_sign (filter printable s ++ filter printable (marker :: t))
       || contains backslash
            (filter printable s ++ filter printable (marker :: t)) = true).
  { destruct Hmarker as [-> | ->].
    - change (filter printable (at_sign :: t))
        with (at_sign :: filter printable t).
      rewrite before_app_absent by exact Hfat.
      cbn [before]. rewrite Z.eqb_refl, app_nil_r.
      split; [apply before_absent; exact Hfbs |].
      rewrite contains_app. cbn. rewrite !orb_true_r. reflexivity.
    - change (filter printable (backslash :: t))
        with (backslash :: filter printable t).
      rewrite before_app_absent by exact Hfat.
      change (before at_sign (backslash :: filter printable t))
        with (backslash :: before at_sign (filter printable t)).
      rewrite before_app_absent by exact Hfbs.
      cbn [before]. rewrite Z.eqb_refl, app_nil_r.
      split; [reflexivity |].
      rewrite (contains_app backslash). cbn. rewrite !orb_true_r. reflexivity. }
  destruct Hcut as [Hbefore Hhas]. rewrite Hhas, Hbefore. reflexivity.
Qed.

Lemma clean_string_truncates_witness :
  clean_string (lit "WIF" ++ at_sign :: lit "garbage") = clean_string (lit "WIF").
Proof.
  apply (clean_string_truncates (lit "WIF") (lit "garbage") at_sign).
  - left. reflexivity.
  - reflexivity.
  - reflexivity.
Defined.

(** ** Bytes that are not ASCII never reach a field *)

Lemma lor_high_l (a b : Z) :
  0 <= a -> 0 <= b -> 128 <= a -> is_ascii (Z.lor a b) = false.
Proof.
  intros Ha Hb Hhigh. unfold is_ascii. apply Z.ltb_ge.
  destruct (Z.lt_ge_cases (Z.lor a b) 128) as [Hlow | Hok]; [| exact Hok].
  exfalso.
  assert (Hlog : 7 <= Z.log2 (Z.lor a b)).
  { rewrite Z.log2_lor by assumption.
    apply Z.le_trans with (Z.log2 a); [| apply Z.le_max_l].
    change 7 with (Z.log2 128). apply Z.log2_le_mono. exact Hhigh. }
  assert (Hnonneg : 0 <= Z.lor a b) by (apply Z.lor_nonneg; split; assumption).
  destruct (Z.eq_dec (Z.lor a b) 0) as [Hz | Hnz].
  - rewrite Hz in Hlog. simpl in Hlog. lia.
  - assert (Hlt : Z.log2 (Z.lor a b) < 7)
      by (apply Z.log2_lt_pow2; [lia | exact Hlow]).
    lia.
Qed.

Lemma lor_high_r (a b : Z) :
  0 <= a -> 0 <= b -> 128 <= b -> is_ascii (Z.lor a b) = false.
Proof.
  intros Ha Hb Hhigh. rewrite Z.lor_comm. apply lor_high_l; assumption.
Qed.

Lemma shiftl_bound (x n k : Z) :
  0 <= n -> k <= x -> k * 2 ^ n <= Z.shiftl x n.
Proof.
  intros Hn Hx. rewrite Z.shiftl_mul_pow2 by exact Hn.
  apply Z.mul_le_mono_nonneg_r; [apply Z.pow_nonneg; lia | exact Hx].
Qed.

Lemma low6_nonneg (b : Z) : 0 <= low6 b.
Proof. unfold low6. apply Z.land_nonneg. right. lia. Qed.

Lemma lead2_payload (x : byte) :
  194 <= ord_byte x -> ord_byte x < 224 -> 2 <= Z.land (ord_byte x) 31.
Proof. destruct x; cbn; lia. Qed.

Lemma lead3_payload (x : byte) :
  224 < ord_byte x -> ord_byte x < 240 -> 1 <= Z.land (ord_byte x) 15.
Proof. destruct x; cbn; lia. Qed.

Lemma lead4_payload (x : byte) :
  240 < ord_byte x -> ord_byte x < 245 -> 1 <= Z.land (ord_byte x) 7.
Proof. destruct x; cbn; lia. Qed.

Lemma second3_payload (x : byte) :
  160 <= ord_byte x -> ord_byte x <= 191 -> 32 <= low6 (ord_byte x).
Proof. unfold low6. destruct x; cbn; lia. Qed.

Lemma second4_payload (x : byte) :
  144 <= ord_byte x -> ord_byte x <= 191 -> 16 <= low6 (ord_byte x).
Proof. unfold low6. destruct x; cbn; lia. Qed.

Lemma cont_not_ascii (b : Z) : is_cont b = true -> is_ascii b = false.
Proof.
  unfold is_cont, is_ascii. rewrite andb_true_iff, Z.leb_le, Z.ltb_ge. tauto.
Qed.

Lemma second3_not_ascii (b0 b1 : Z) :
  second_of_3 b0 b1 = true -> is_ascii b1 = false.
Proof.
  unfold second_of_3, is_cont, is_ascii.
  destruct (b0 =? 224); [| destruct (b0 =? 237)];
    rewrite andb_true_iff, !Z.leb_le, Z.ltb_ge; lia.
Qed.

Lemma second4_not_ascii (b0 b1 : Z) :
  second_of_4 b0 b1 = true -> is_ascii b1 = false.
Proof.
  unfold second_of_4, is_cont, is_ascii.
  destruct (b0 =? 240); [| destruct (b0 =? 244)];
    rewrite andb_true_iff, !Z.leb_le, Z.ltb_ge; lia.
Qed.

(** The code point of a well-formed sequence of two, three or four bytes
    is not ASCII. *)
Lemma two_byte_not_ascii (x0 x1 : byte) :
  194 <= ord_byte x0 -> ord_byte x0 < 224 ->
  is_ascii (Z.lor (Z.shiftl (Z.land (ord_byte x0) 31) 6) (low6 (ord_byte x1)))
  = false.
Proof.
  intros Hlo Hhi. apply lor_high_l; [| apply low6_nonneg |].
  - apply Z.shiftl_nonneg. apply Z.land_nonneg. right. lia.
  - pose proof (shiftl_bound (Z.land (ord_byte x0) 31) 6 2 ltac:(lia)
                  (lead2_payload x0 Hlo Hhi)) as H.
    change (2 * 2 ^ 6) with 128 in H. exact H.
Qed.

Lemma three_byte_not_ascii (x0 x1 x2 : byte) :
  224 <= ord_byte x0 -> ord_byte x0 < 240 ->
  second_of_3 (ord_byte x0) (ord_byte x1) = true ->
  is_ascii
    (Z.lor (Z.shiftl (Z.land (ord_byte x0) 15) 12)
       (Z.lor (Z.shiftl (low6 (ord_byte x1)) 6) (low6 (ord_byte x2))))
  = false.
Proof.
  intros Hlo Hhi Hsecond.
  assert (H0 : 0 <= Z.shiftl (Z.land (ord_byte x0) 15) 12)
    by (apply Z.shiftl_nonneg, Z.land_nonneg; right; lia).
  assert (H1 : 0 <= Z.shiftl (low6 (ord_byte x1)) 6)
    by (apply Z.shiftl_nonneg, low6_nonneg).
  assert (Hin : 0 <= Z.lor (Z.shiftl (low6 (ord_byte x1)) 6) (low6 (ord_byte x2)))
    by (apply Z.lor_nonneg; split; [exact H1 | apply low6_nonneg]).
  destruct (Z.eq_dec (ord_byte x0) 224) as [E | E].
  - apply lor_high_r; [exact H0 | exact Hin |].
    unfold second_of_3 in Hsecond. rewrite E in Hsecond. cbn in Hsecond.
    apply andb_true_iff in Hsecond. rewrite !Z.leb_le in Hsecond.
    pose proof (shiftl_bound (low6 (ord_byte x1)) 6 32 ltac:(lia)
                  (second3_payload x1 (proj1 Hsecond) (proj2 Hsecond))) as H.
    change (32 * 2 ^ 6) with 2048 in H.
    assert (Hge : is_ascii (Z.lor (Z.shiftl (low6 (ord_byte x1)) 6)
                              (low6 (ord_byte x2))) = false)
      by (apply lor_high_l; [exact H1 | apply low6_nonneg | lia]).
    unfold is_ascii in Hge. apply Z.ltb_ge in Hge. exact Hge.
  - apply lor_high_l; [exact H0 | exact Hin |].
    pose proof (shiftl_bound (Z.land (ord_byte x0) 15) 12 1 ltac:(lia)
                  (lead3_payload x0 ltac:(lia) Hhi)) as H.
    change (1 * 2 ^ 12) with 4096 in H. lia.
Qed.

Lemma four_byte_not_ascii (x0 x1 x2 x3 : byte) :
  240 <= ord_byte x0 -> ord_byte x0 < 245 ->
  second_of_4 (ord_byte x0) (ord_byte x1) = true ->
  is_ascii
    (Z.lor (Z.shiftl (Z.land (ord_byte x0) 7) 18)
       (Z.lor (Z.shiftl (low6 (ord_byte x1)) 12)
          (Z.lor (Z.shiftl (low6 (ord_byte x2)) 6) (low6 (ord_byte x3)))))
  = false.
Proof.
  intros Hlo Hhi Hsecond.
  assert (H0 : 0 <= Z.shiftl (Z.land (ord_byte x0) 7) 18)
    by (apply Z.shiftl_nonneg, Z.land_nonneg; right; lia).
  assert (H1 : 0 <= Z.shiftl (low6 (ord_byte x1)) 12)
    by (apply Z.shiftl_nonneg, low6_nonneg).
  assert (H2 : 0 <= Z.lor (Z.shiftl (low6 (ord_byte x2)) 6) (low6 (ord_byte x3))).
  { apply Z.lor_nonneg. split; [apply Z.shiftl_nonneg |]; apply low6_nonneg. }
  assert (Hin : 0 <= Z.lor (Z.shiftl (low6 (ord_byte x1)) 12)
                       (Z.lor (Z.shiftl (low6 (ord_byte x2)) 6)
                          (low6 (ord_byte x3))))
    by (apply Z.lor_nonneg; split; assumption).
  destruct (Z.eq_dec (ord_byte x0) 240) as [E | E].
  - apply lor_high_r; [exact H0 | exact Hin |].
    unfold second_of_4 in Hsecond. rewrite E in Hsecond. cbn in Hsecond.
    apply andb_true_iff in Hsecond. rewrite !Z.leb_le in Hsecond.
    pose proof (shiftl_bound (low6 (ord_byte x1)) 12 16 ltac:(lia)
                  (second4_payload x1 (proj1 Hsecond) (proj2 Hsecond))) as H.
    change (16 * 2 ^ 12) with 65536 in H.
    assert (Hge : is_ascii (Z.lor (Z.shiftl (low6 (ord_byte x1)) 12)
                              (Z.lor (Z.shiftl (low6 (ord_byte x2)) 6)
                                 (low6 (ord_byte x3)))) = false)
      by (apply lor_high_l; [exact H1 | exact H2 | lia]).
    unfold is_ascii in Hge. apply Z.ltb_ge in Hge. exact Hge.
  - apply lor_high_l; [exact H0 | exact Hin |].
    pose proof (shiftl_bound (Z.land (ord_byte x0) 7) 18 1 ltac:(lia)
                  (lead4_payload x0 ltac:(lia) Hhi)) as H.
    change (1 * 2 ^ 18) with 262144 in H. lia.
Qed.

(** The ASCII characters of the decoded text are the ASCII bytes of the
    input, in order: an ill-formed sequence neither yields nor swallows
    one. *)
Lemma utf8_ascii_bounded (n : nat) :
  forall bs, (List.length bs <= n)%nat ->
    filter is_ascii (utf8_decode_ignore bs) = filter is_ascii (latin1_decode bs).
Proof.
  unfold latin1_decode.
  induction n as [| n IH]; intros bs Hlen.
  - destruct bs; [reflexivity | simpl in Hlen; lia].
  - destruct bs as [| x0 t0]; [reflexivity |].
    assert (IH0 : filter is_ascii (utf8_decode_ignore t0)
                  = filter is_ascii (map ord_byte t0))
      by (apply IH; simpl in Hlen; lia).
    cbn [utf8_decode_ignore map filter]. cbv zeta.
    change (ord_byte x0 <? 128) with (is_ascii (ord_byte x0)).
    destruct (is_ascii (ord_byte x0)) eqn:E0.
    { cbn [filter]. rewrite E0, IH0. reflexivity. }
    unfold is_ascii in E0. apply Z.ltb_ge in E0.
    destruct (ord_byte x0 <? 194) eqn:E194; [exact IH0 |].
    apply Z.ltb_ge in E194.
    destruct (ord_byte x0 <? 224) eqn:E224.
    { apply Z.ltb_lt in E224.
      destruct t0 as [| x1 t1]; [reflexivity |].
      destruct (is_cont (ord_byte x1)) eqn:Ec1; [| exact IH0].
      cbn [filter map].
      rewrite (two_byte_not_ascii x0 x1 E194 E224), (cont_not_ascii _ Ec1).
      apply IH. simpl in Hlen. lia. }
    apply Z.ltb_ge in E224.
    destruct (ord_byte x0 <? 240) eqn:E240.
    { apply Z.ltb_lt in E240.
      destruct t0 as [| x1 t1]; [reflexivity |].
      destruct (second_of_3 (ord_byte x0) (ord_byte x1)) eqn:Es; [| exact IH0].
      assert (IH1 : filter is_ascii (utf8_decode_ignore t1)
                    = filter is_ascii (map ord_byte t1))
        by (apply IH; simpl in Hlen; lia).
      cbn [filter map]. rewrite (second3_not_ascii _ _ Es).
      destruct t1 as [| x2 t2]; [reflexivity |].
      destruct (is_cont (ord_byte x2)) eqn:Ec2; [| exact IH1].
      cbn [filter map].
      rewrite (three_byte_not_ascii x0 x1 x2 E224 E240 Es),
              (cont_not_ascii _ Ec2).
      apply IH. simpl in Hlen. lia. }
    apply Z.ltb_ge in E240.
    destruct (ord_byte x0 <? 245) eqn:E245; [| exact IH0].
    apply Z.ltb_lt in E245.
    destruct t0 as [| x1 t1]; [reflexivity |].
    destruct (second_of_4 (ord_byte x0) (ord_byte x1)) eqn:Es; [| exact IH0].
    assert (IH1 : filter is_ascii (utf8_decode_ignore t1)
                  = filter is_ascii (map ord_byte t1))
      by (apply IH; simpl in Hlen; lia).
    cbn [filter map]. rewrite (second4_not_ascii _ _ Es).
    destruct t1 as [| x2 t2]; [reflexivity |].
    destruct (is_cont (ord_byte x2)) eqn:Ec2; [| exact IH1].
    assert (IH2 : filter is_ascii (utf8_decode_ignore t2)
                  = filter is_ascii (map ord_byte t2))
      by (apply IH; simpl in Hlen; lia).
    cbn [filter map]. rewrite (cont_not_ascii _ Ec2).
    destruct t2 as [| x3 t3]; [reflexivity |].
    destruct (is_cont (ord_byte x3)) eqn:Ec3; [| exact IH2].
    cbn [filter map].
    rewrite (four_byte_not_ascii x0 x1 x2 x3 E240 E245 Es),
            (cont_not_ascii _ Ec3).
    apply IH. simpl in Hlen. lia.
Qed.

Lemma filter_printable_ascii (s : ustring) :
  filter printable (filter is_ascii s) = filter printable s.
Proof.
  induction s as [| c s IH]; [reflexivity |].
  cbn [filter]. destruct (is_ascii c) eqn:E.
  - cbn [filter]. rewrite IH. reflexivity.
  - rewrite IH.
    assert (Hp : printable c = false).
    { unfold is_ascii in E. apply Z.ltb_ge in E.
      destruct (printable c) eqn:Ep; [| reflexivity].
      apply printable_range in Ep. lia. }
    rewrite Hp. reflexivity.
Qed.

(** [clean_string] looks only at the printable characters of its input. *)
Lemma clean_string_of_printable (s : ustring) :
  clean_string s
  = strip (if contains at_sign (filter printable s)
              || contains backslash (filter printable s)
           then before backslash (before at_sign (filter printable s))
           else filter printable s).
Proof.
  unfold clean_string. destruct s as [| c s]; reflexivity.
Qed.

(** The value read for a field is the same whether its bytes are decoded
    as UTF-8 with errors ignored, as the source does, or one byte to a
    character: bytes that are not printable ASCII never show in it. *)
Theorem field_value_ignores_encoding (bs : list byte) :
  clean_string (utf8_decode_ignore bs) = clean_string (latin1_decode bs).
Proof.
  rewrite !clean_string_of_printable.
  assert (H : filter printable (utf8_decode_ignore bs)
              = filter printable (latin1_decode bs)).
  { rewrite <- filter_printable_ascii,
            <- (filter_printable_ascii (latin1_decode bs)).
    rewrite (utf8_ascii_bounded (List.length bs) bs (Nat.le_refl _)).
    reflexivity. }
  rewrite H. reflexivity.
Qed.

(** ** The cursor *)

(** The alignment step rounds the cursor up to a multiple of 8: the result
    is a multiple of 8, not below the cursor and less than 8 above it. *)
Theorem align8_rounds_up (pos : Z) :
  align8 pos mod 8 = 0 /\ pos <= align8 pos < pos + 8.
Proof.
  assert (Hform : align8 pos = (pos + 7) / 8 * 8).
  { unfold align8. rewrite <- Z.ldiff_land.
    change (Z.ldiff (pos + 7) 7) with (Z.ldiff (pos + 7) (Z.ones 3)).
    rewrite Z.ldiff_ones_r by lia.
    rewrite Z.shiftr_div_pow2, Z.shiftl_mul_pow2 by lia. reflexivity. }
  rewrite Hform.
  pose proof (Z.div_mod (pos + 7) 8 ltac:(lia)) as Hdiv.
  pose proof (Z.mod_pos_bound (pos + 7) 8 ltac:(lia)) as Hmod.
  split; [apply Z.mod_mul; lia | lia].
Qed.

Lemma skip_prefix_from (rest : list byte) (pos : Z) :
  exists k : nat,
    skip_prefix rest pos = pos + Z.of_nat k
    /\ (k <= List.length rest)%nat
    /\ forallb is_delimiter (firstn k rest) = true
    /\ (forall b, nth_error rest k = Some b -> is_delimiter b = false).
Proof.
  revert pos. induction rest as [| b rest IH]; intros pos.
  - exists 0%nat. cbn. repeat split; try lia. intros b H. discriminate H.
  - cbn [skip_prefix]. change ((ord_byte b =? 0) || (ord_byte b =? 10))
      with (is_delimiter b).
    destruct (is_delimiter b) eqn:E.
    + destruct (IH (pos + 1)) as [k [Hpos [Hk [Hall Hstop]]]].
      exists (S k). cbn [firstn forallb nth_error List.length].
      rewrite E, Hall. repeat split; [lia | lia | exact Hstop].
    + exists 0%nat. cbn. repeat split; try lia.
      intros b' H. injection H as <-. exact E.
Qed.

(** The leading loop of [decode_pair] stops at the first byte that is
    neither [0x00] nor [0x0A], or at the end of the slice: every byte
    before the cursor it returns is a delimiter, and the byte under it, if
    there is one, is not. *)
Theorem skip_prefix_stops (data : list byte) :
  0 <= skip_prefix data 0 <= len data
  /\ forallb is_delimiter (py_slice data 0 (skip_prefix data 0)) = true
  /\ (forall b, py_index data (skip_prefix data 0) = Ok b ->
                is_delimiter b = false).
Proof.
  destruct (skip_prefix_from data 0) as [k [Hpos [Hk [Hall Hstop]]]].
  rewrite Z.add_0_l in Hpos. rewrite Hpos.
  split; [unfold len; lia |]. split.
  - change (Z.of_nat k) with (0 + Z.of_nat k).
    rewrite (py_slice_window data 0 (Z.of_nat k)) by (unfold len; lia).
    cbn [Z.to_nat skipn]. rewrite Nat2Z.id. exact Hall.
  - intros b Hb. unfold py_index in Hb.
    destruct (Z.of_nat k <? 0) eqn:Eneg; [apply Z.ltb_lt in Eneg; lia |].
    destruct ((0 <=? Z.of_nat k) && (Z.of_nat k <? len data));
      [| discriminate Hb].
    rewrite Nat2Z.id in Hb.
    destruct (nth_error data k) as [b' |] eqn:E; [| discriminate Hb].
    injection Hb as <-. apply Hstop. reflexivity.
Qed.

Lemma len_cons {A : Type} (a : A) (l : list A) :
  len (a :: l) = len l + 1.
Proof. unfold len. cbn [List.length]. lia. Qed.

Lemma len_nonneg {A : Type} (l : list A) : 0 <= len l.
Proof. unfold len. lia. Qed.

Lemma py_index_inside {A : Type} (l : list A) (pos : Z) :
  0 <= pos < len l ->
  exists a, py_index l pos = Ok a /\ nth_error l (Z.to_nat pos) = Some a.
Proof.
  intros Hpos. unfold py_index.
  destruct (pos <? 0) eqn:Eneg; [apply Z.ltb_lt in Eneg; lia |].
  replace ((0 <=? pos) && (pos <? len l)) with true
    by (symmetry; apply andb_true_iff; rewrite Z.leb_le, Z.ltb_lt; lia).
  destruct (nth_error l (Z.to_nat pos)) as [a |] eqn:E.
  - exists a. split; reflexivity.
  - apply nth_error_None in E. unfold len in Hpos. lia.
Qed.

Lemma decode_field_inside (data : list byte) (pos : Z) (field : string)
  (pair : record) :
  0 <= pos < len data ->
  exists b pair',
    decode_field data pos field pair = Ok (pos + 1 + ord_byte b, pair').
Proof.
  intros Hpos. destruct (py_index_inside data pos Hpos) as [b [Hb _]].
  exists b. unfold decode_field. rewrite Hb. cbn [bind]. cbv zeta.
  destruct ((ord_byte b =? 0) || (ord_byte b >? 100)
            || (pos + 1 + ord_byte b >? len data));
    eexists; reflexivity.
Qed.

(** From a cursor that is not negative the field loop never raises; its
    cursor never moves back, moves at most 256 bytes per field, and ends
    at most 255 bytes past the end of the buffer; it adds no key besides
    the names of its fields. *)
Theorem decode_fields_cursor (data : list byte) (fs : list string) :
  forall pos pair,
    0 <= pos ->
    exists pos' pair',
      decode_fields data fs pos pair = Ok (pos', pair')
      /\ pos <= pos' <= pos + 256 * len fs
      /\ pos' <= Z.max pos (len data + 255)
      /\ (forall k, dict_mem k pair' = true ->
                    dict_mem k pair = true \/ In k fs).
Proof.
  induction fs as [| field fs IH]; intros pos pair Hpos.
  - exists pos, pair. cbn [decode_fields]. unfold len. cbn [List.length].
    repeat split; try lia. intros k Hk. left. exact Hk.
  - cbn [decode_fields]. destruct (pos >=? len data) eqn:E.
    + exists pos, pair. rewrite len_cons.
      pose proof (len_nonneg fs).
      repeat split; try lia. intros k Hk. left. exact Hk.
    + rewrite Z.geb_leb in E. apply Z.leb_gt in E.
      destruct (decode_field_inside data pos field pair) as [b [pair1 Hone]];
        [lia |].
      rewrite Hone. cbn [bind].
      pose proof (ord_byte_range b) as Hb.
      destruct (IH (pos + 1 + ord_byte b) pair1) as
        [pos' [pair' [Hrun [Hrange [Hend Hkeys]]]]]; [lia |].
      exists pos', pair'. rewrite len_cons.
      pose proof (len_nonneg fs).
      repeat split; try lia; [exact Hrun |].
      intros k Hk. destruct (Hkeys k Hk) as [H1 | Hin];
        [| right; right; exact Hin].
      destruct (decode_field_keys _ _ _ _ _ _ k Hone H1) as [H0 | ->];
        [left; exact H0 | right; left; reflexivity].
Qed.

(** ** Well-formed fields are read back *)

Lemma skipn_exact {A : Type} (a b : list A) : skipn (List.length a) (a ++ b) = b.
Proof. induction a as [| x a IH]; [reflexivity | exact IH]. Qed.

Lemma firstn_exact {A : Type} (a b : list A) : firstn (List.length a) (a ++ b) = a.
Proof.
  induction a as [| x a IH]; [reflexivity |]. cbn. rewrite IH. reflexivity.
Qed.

Lemma ord_byte_of_small (c : Z) : 0 <= c < 256 -> ord_byte (byte_of_Z c) = c.
Proof. intros Hc. rewrite ord_byte_of_Z. apply Z.mod_small. exact Hc. Qed.

Lemma utf8_ascii_identity (s : ustring) :
  (forall c, In c s -> 0 <= c < 128) ->
  utf8_decode_ignore (map byte_of_Z s) = s.
Proof.
  induction s as [| c s IH]; intros Hall; [reflexivity |].
  assert (Hc : 0 <= c < 128) by (apply Hall; left; reflexivity).
  cbn [map utf8_decode_ignore]. cbv zeta.
  rewrite ord_byte_of_small by lia.
  replace (c <? 128) with true by (symmetry; apply Z.ltb_lt; lia).
  rewrite IH; [reflexivity |].
  intros d Hd. apply Hall. right. exact Hd.
Qed.

Lemma field_text_clean (s : ustring) :
  field_text s -> clean_string s = s /\ truthy s = true
                  /\ (forall c, In c s -> 0 <= c < 128).
Proof.
  intros [Hlen [Hall [Hhead Htail]]]. split; [| split].
  - apply clean_string_fixed. split.
    + intros c Hc. destruct (Hall c Hc) as [Hp [Ha Hb]].
      split; [apply printable_range; exact Hp | split; assumption].
    + apply strip_fixed_ends. split; assumption.
  - destruct s; [unfold len in Hlen; cbn in Hlen; lia | reflexivity].
  - intros c Hc. destruct (Hall c Hc) as [Hp _]. lia.
Qed.

Lemma decode_field_reads (pre post : list byte) (s : ustring) (field : string)
  (pair : record) :
  field_text s ->
  decode_field (pre ++ encode_field s ++ post) (len pre) field pair
  = Ok (len pre + 1 + len s, dict_set field (VStr s) pair).
Proof.
  intros Htext. destruct (field_text_clean s Htext) as [Hclean [Htruthy Hascii]].
  destruct Htext as [Hlen _].
  assert (Hdata : len (pre ++ encode_field s ++ post)
                  = len pre + 1 + len s + len post).
  { unfold len, encode_field. rewrite length_app. cbn [app List.length].
    rewrite length_app, length_map. lia. }
  unfold decode_field.
  assert (Hread : py_index (pre ++ encode_field s ++ post) (len pre)
                  = Ok (byte_of_Z (len s))).
  { destruct (py_index_inside (pre ++ encode_field s ++ post) (len pre))
      as [b [Hb Hnth]].
    - rewrite Hdata. unfold len. lia.
    - rewrite Hb. f_equal. unfold len in Hnth. rewrite Nat2Z.id in Hnth.
      rewrite nth_error_app2, Nat.sub_diag in Hnth by lia.
      cbn in Hnth. congruence. }
  rewrite Hread. cbn [bind]. cbv zeta.
  rewrite ord_byte_of_small by lia.
  replace ((len s =? 0) || (len s >? 100)
           || (len pre + 1 + len s >? len (pre ++ encode_field s ++ post)))
    with false.
  2:{ symmetry. rewrite Hdata, !orb_false_iff, Z.eqb_neq, !Z.gtb_ltb, !Z.ltb_ge.
      unfold len in *. lia. }
  rewrite py_slice_window by (rewrite ?Hdata; unfold len in *; lia).
  replace (pre ++ encode_field s ++ post)
    with ((pre ++ [byte_of_Z (len s)]) ++ map byte_of_Z s ++ post)
    by (unfold encode_field; rewrite <- app_assoc; reflexivity).
  replace (Z.to_nat (len pre + 1)) with (List.length (pre ++ [byte_of_Z (len s)]))
    by (rewrite length_app; unfold len; cbn; lia).
  rewrite skipn_exact.
  replace (Z.to_nat (len s)) with (List.length (map byte_of_Z s))
    by (rewrite length_map; unfold len; lia).
  rewrite firstn_exact, utf8_ascii_identity by exact Hascii.
  rewrite Hclean, Htruthy. reflexivity.
Qed.

(** A run of well-formed fields laid out one after the other is read back
    whole: each text is stored under its name, unchanged, and the cursor
    ends right after the last field. *)
Lemma decode_fields_reads (entries : list (string * ustring)) :
  forall (pre post : list byte) (pair : record),
    Forall (fun e => field_text (snd e)) entries ->
    decode_fields
      (pre ++ flat_map (fun e => encode_field (snd e)) entries ++ post)
      (map fst entries) (len pre) pair
    = Ok (len pre + len (flat_map (fun e => encode_field (snd e)) entries),
          store_texts entries pair).
Proof.
  induction entries as [| [field s] entries IH]; intros pre post pair Hall.
  - cbn [flat_map map decode_fields store_texts fold_left].
    change (len (@nil byte)) with 0. rewrite Z.add_0_r. reflexivity.
  - inversion Hall as [| ? ? Htext Hrest]; subst. cbn [snd] in Htext.
    cbn [flat_map map fst snd decode_fields store_texts fold_left].
    rewrite <- app_assoc.
    assert (Hlen : len (pre ++ encode_field s
                          ++ flat_map (fun e => encode_field (snd e)) entries
                          ++ post) > len pre).
    { unfold len, encode_field. rewrite length_app. cbn [app List.length]. lia. }
    replace (len pre >=? _) with false
      by (symmetry; rewrite Z.geb_leb; apply Z.leb_gt; lia).
    rewrite decode_field_reads by exact Htext. cbn [bind].
    replace (pre ++ encode_field s
               ++ flat_map (fun e => encode_field (snd e)) entries ++ post)
      with ((pre ++ encode_field s)
              ++ flat_map (fun e => encode_field (snd e)) entries ++ post)
      by (rewrite <- app_assoc; reflexivity).
    replace (len pre + 1 + len s) with (len (pre ++ encode_field s))
      by (unfold len, encode_field; rewrite length_app; cbn [List.length];
          rewrite length_map; lia).
    rewrite IH by exact Hrest.
    f_equal. f_equal. unfold len, encode_field.
    rewrite !length_app. cbn [List.length]. rewrite length_map. lia.
Qed.

(** ** The body of [decode_pair] as plain functions *)

Lemma copy_metric_value (key : string) (metrics : dict float64)
  (store : float64 -> record -> record) (pair : record) :
  copy_metric key metrics store pair = Ok (with_metric key metrics store pair).
Proof.
  unfold copy_metric, with_metric, dict_mem, dict_item.
  destruct (dict_get key metrics); reflexivity.
Qed.

Lemma emit_metrics_pure (P : platform) (metrics : dict float64)
  (pair : record) :
  emit_metrics P metrics pair = Ok (emitted P metrics pair).
Proof.
  unfold emit_metrics, emitted.
  destruct (truthy metrics); [| reflexivity].
  repeat (rewrite copy_metric_value; cbn [bind]). cbv zeta.
  unfold dict_mem, dict_item.
  destruct (dict_get "timestamp" metrics) as [ts |]; [| reflexivity].
  cbn [bind].
  destruct (float_ge_zero ts && float_lt_int ts year_2100); [| reflexivity].
  rewrite dict_get_set_same. cbn [bind format_created].
  unfold formatted_or_origin.
  destruct (strftime_local P (float_trunc ts)); reflexivity.
Qed.

Lemma decode_fields_total (data : list byte) (fs : list string) :
  forall pos pair,
    0 <= pos ->
    exists pos' pair',
      decode_fields data fs pos pair = Ok (pos', pair') /\ 0 <= pos'.
Proof.
  induction fs as [| field fs IH]; intros pos pair Hpos.
  - exists pos, pair. split; [reflexivity | exact Hpos].
  - cbn [decode_fields]. destruct (pos >=? len data) eqn:E.
    + exists pos, pair. split; [reflexivity | exact Hpos].
    + rewrite Z.geb_leb in E. apply Z.leb_gt in E.
      destruct (decode_field_inside data pos field pair) as [b [pair1 Hone]];
        [lia |].
      rewrite Hone. cbn [bind]. apply IH.
      pose proof (ord_byte_range b). lia.
Qed.

Lemma skip_prefix_nonneg (rest : list byte) (pos : Z) :
  0 <= pos -> 0 <= skip_prefix rest pos.
Proof.
  intros Hpos. destruct (skip_prefix_from rest pos) as [k [Hk _]]. lia.
Qed.

(** Up to the validation the body of [decode_pair] never raises. *)
Lemma build_pair_total (P : platform) (data : list byte) :
  exists pair, build_pair P data = Ok pair.
Proof.
  unfold build_pair.
  destruct (decode_fields_total data fields (skip_prefix data 0) [])
    as [pos [pair0 [Hfields _]]]; [apply skip_prefix_nonneg; lia |].
  rewrite Hfields. cbn [bind]. cbv zeta.
  destruct (decode_metrics_never_raises (native P) data
              (Z.land (pos + 7) (Z.lnot 7))) as [[metrics pos'] Hmetrics].
  rewrite Hmetrics. cbn [bind]. cbv zeta.
  rewrite emit_metrics_pure. eexists. reflexivity.
Qed.

(** [decode_pair] as a plain function of the mapping it builds.  The
    mapping is always built, nothing raising before the validation; with
    [str] never rendering a surviving float as [0], the mapping is returned
    when it has more than two keys and holds both the volume and the
    liquidity group, and no record is returned otherwise. *)
Theorem decode_pair_decides (P : platform) (data : list byte) :
  renders_nonzero P ->
  exists pair,
    build_pair P data = Ok pair
    /\ decode_pair P data = Ok (if accepted pair then Some pair else None).
Proof.
  intros Hrender. destruct (build_pair_total P data) as [pair Hbuild].
  exists pair. split; [exact Hbuild |].
  unfold accepted.
  destruct ((len pair >? 2) && dict_mem "volume" pair
            && dict_mem "liquidity" pair) eqn:E.
  - apply andb_true_iff in E. destruct E as [E Hliq].
    apply andb_true_iff in E. destruct E as [Hlen Hvol].
    rewrite Z.gtb_ltb in Hlen. apply Z.ltb_lt in Hlen.
    apply (decode_pair_returns_iff P data pair Hrender).
    repeat split; [exact Hbuild | lia | exact Hvol | exact Hliq].
  - destruct (decode_pair_never_raises P data) as [[r |] Hr]; [| exact Hr].
    exfalso.
    apply (decode_pair_returns_iff P data r Hrender) in Hr.
    destruct Hr as [Hb [Hlen [Hvol Hliq]]].
    assert (r = pair) by congruence. subst r.
    rewrite Hvol, Hliq, !andb_true_r in E.
    rewrite Z.gtb_ltb in E. apply Z.ltb_ge in E. lia.
Qed.

Lemma decode_pair_decides_witness :
  exists pair,
    build_pair reference_platform price_only_slice = Ok pair
    /\ decode_pair reference_platform price_only_slice
       = Ok (if accepted pair then Some pair else None).
Proof.
  apply (decode_pair_decides reference_platform price_only_slice).
  exact reference_renders_nonzero.
Defined.

(** ** A well-formed slice *)

Lemma six_texts (texts : list ustring) :
  List.length texts = 6%nat ->
  Forall field_text texts ->
  exists s1 s2 s3 s4 s5 s6,
    texts = [s1; s2; s3; s4; s5; s6]
    /\ Forall (fun e => field_text (snd e)) (combine fields texts).
Proof.
  intros Hlen Hall.
  destruct texts as [| s1 [| s2 [| s3 [| s4 [| s5 [| s6 [| s7 rest]]]]]]];
    try discriminate Hlen.
  exists s1, s2, s3, s4, s5, s6. split; [reflexivity |].
  repeat (match goal with
          | H : Forall _ (_ :: _) |- _ =>
              let Hhead := fresh "Hhead" in
              let Htail := fresh "Htail" in
              inversion H as [| ? ? Hhead Htail]; subst; clear H
          end).
  unfold fields. cbn [combine].
  repeat (constructor; [assumption |]). constructor.
Qed.

Lemma starts_clean_check (s : ustring) :
  starts_clean_b s = true -> starts_clean s.
Proof.
  destruct s as [| c s]; cbn; [intros _; exact I |].
  intros H. apply negb_true_iff in H. exact H.
Qed.

Lemma field_text_check (s : ustring) : field_text_b s = true -> field_text s.
Proof.
  unfold field_text_b, field_text. rewrite !andb_true_iff.
  intros [[[[Hlo Hhi] Hall] Hhead] Htail].
  apply Z.leb_le in Hlo, Hhi. rewrite forallb_forall in Hall.
  repeat split; try lia; try (apply starts_clean_check; assumption);
    specialize (Hall c H); rewrite !andb_true_iff, !negb_true_iff in Hall;
    destruct Hall as [[Hp Ha] Hb];
    apply printable_range in Hp; apply Z.eqb_neq in Ha, Hb; lia.
Qed.

(** The six fields of a record, each well formed and laid out one after
    the other at the start of a slice, are read back under the six names
    of the source, whatever follows them. *)
Theorem six_fields_round_trip (texts : list ustring) (post : list byte) :
  List.length texts = 6%nat ->
  Forall field_text texts ->
  decode_fields (flat_map encode_field texts ++ post) fields 0 []
  = Ok (len (flat_map encode_field texts),
        store_texts (combine fields texts) []).
Proof.
  intros Hlen Hall.
  destruct (six_texts texts Hlen Hall) as
    [s1 [s2 [s3 [s4 [s5 [s6 [-> Hentries]]]]]]].
  pose proof (decode_fields_reads (combine fields [s1; s2; s3; s4; s5; s6])
                [] post [] Hentries) as Hread.
  unfold fields in Hread |- *.
  cbn [combine map fst snd flat_map app] in Hread |- *.
  change (len (@nil byte)) with 0 in Hread. rewrite Z.add_0_l in Hread.
  exact Hread.
Qed.

Lemma six_fields_round_trip_witness :
  decode_fields
    (flat_map encode_field
       [lit "sol"; lit "ray"; lit "addr"; lit "name"; lit "sym"; lit "tok"]
     ++ [x00; x00])
    fields 0 []
  = Ok (len (flat_map encode_field
               [lit "sol"; lit "ray"; lit "addr"; lit "name"; lit "sym";
                lit "tok"]),
        store_texts
          (combine fields
             [lit "sol"; lit "ray"; lit "addr"; lit "name"; lit "sym";
              lit "tok"]) []).
Proof.
  apply (six_fields_round_trip
           [lit "sol"; lit "ray"; lit "addr"; lit "name"; lit "sym"; lit "tok"]
           [x00; x00]).
  - reflexivity.
  - repeat (constructor; [apply field_text_check; reflexivity |]). constructor.
Defined.

Lemma len_app_lists {A : Type} (l1 l2 : list A) :
  len (l1 ++ l2) = len l1 + len l2.
Proof. unfold len. rewrite length_app. lia. Qed.

Lemma align8_form (pos : Z) : pos <= align8 pos.
Proof.
  unfold align8. rewrite <- Z.ldiff_land.
  change (Z.ldiff (pos + 7) 7) with (Z.ldiff (pos + 7) (Z.ones 3)).
  rewrite Z.ldiff_ones_r by lia.
  rewrite Z.shiftr_div_pow2, Z.shiftl_mul_pow2 by lia.
  change (2 ^ 3) with 8.
  pose proof (Z.div_mod (pos + 7) 8 ltac:(lia)) as Hdiv.
  pose proof (Z.mod_pos_bound (pos + 7) 8 ltac:(lia)) as Hmod.
  lia.
Qed.

Lemma py_slice_middle {A : Type} (pre mid post : list A) (a b : Z) :
  0 <= a -> a <= b -> b <= len mid ->
  py_slice (pre ++ mid ++ post) (len pre + a) (len pre + b) = py_slice mid a b.
Proof.
  intros Ha Hab Hb.
  replace (len pre + b) with (len pre + a + (b - a)) by lia.
  rewrite py_slice_window
    by (rewrite ?length_app; unfold len in *; rewrite ?length_app; lia).
  replace b with (a + (b - a)) at 2 by lia.
  rewrite (py_slice_window mid a (b - a)) by lia.
  replace (Z.to_nat (len pre + a)) with (Z.to_nat a + List.length pre)%nat
    by (unfold len; lia).
  rewrite <- skipn_skipn, skipn_exact.
  rewrite skipn_app, firstn_app.
  replace (Z.to_nat a - List.length mid)%nat with 0%nat by (unfold len in Hb; lia).
  replace (Z.to_nat (b - a) - List.length (skipn (Z.to_nat a) mid))%nat
    with 0%nat by (rewrite length_skipn; unfold len in Hb; lia).
  cbn [skipn firstn]. apply app_nil_r.
Qed.

Lemma value_map_at_middle (order : byteorder) (pre mid post : list byte) :
  len mid = 64 ->
  value_map_at order (pre ++ mid ++ post) (len pre) = value_map_at order mid 0.
Proof.
  intros Hmid. unfold value_map_at, slot_value. cbn [map].
  rewrite <- !Z.add_assoc.
  rewrite !(py_slice_middle pre mid post) by lia.
  reflexivity.
Qed.

(** A well-formed slice is decoded as it is laid out.  Six well-formed
    fields (the first not 10 characters long, or its length byte would be
    taken for a delimiter), padding up to the next multiple of 8 and a
    block of 64 bytes give the six texts under their names and the
    surviving slots of that block, whatever follows. *)
Theorem build_pair_layout (P : platform) (texts : list ustring)
  (pad block post : list byte) :
  List.length texts = 6%nat ->
  Forall field_text texts ->
  (forall s, hd_error texts = Some s -> len s <> 10) ->
  len pad = align8 (len (flat_map encode_field texts))
            - len (flat_map encode_field texts) ->
  len block = 64 ->
  build_pair P (flat_map encode_field texts ++ pad ++ block ++ post)
  = Ok (emitted P
          (filter (fun kv => isfinite (snd kv) && negb (float_eq_zero (snd kv)))
             (value_map_at (native P) block 0))
          (store_texts (combine fields texts) [])).
Proof.
  intros Hsix Hall Hfirst Hpad Hblock.
  destruct (six_texts texts Hsix Hall) as
    [s1 [s2 [s3 [s4 [s5 [s6 [Htexts Hentries]]]]]]].
  assert (Hhead : 1 <= len s1 <= 100 /\ len s1 <> 10).
  { subst texts. inversion Hall as [| ? ? [Hlen _] _]; subst.
    split; [exact Hlen | apply Hfirst; reflexivity]. }
  pose proof (decode_fields_reads (combine fields texts) []
                (pad ++ block ++ post) [] Hentries) as Hread.
  assert (Hkeys : map fst (combine fields texts) = fields)
    by (subst texts; reflexivity).
  assert (Hbytes : flat_map (fun e => encode_field (snd e)) (combine fields texts)
                   = flat_map encode_field texts)
    by (subst texts; reflexivity).
  rewrite Hkeys, Hbytes in Hread. cbn [app] in Hread.
  change (len (@nil byte)) with 0 in Hread. rewrite Z.add_0_l in Hread.
  unfold build_pair.
  assert (Hskip : skip_prefix (flat_map encode_field texts ++ pad ++ block ++ post) 0
                  = 0).
  { subst texts. cbn [flat_map encode_field app skip_prefix].
    rewrite ord_byte_of_small by lia.
    replace (len s1 =? 0) with false by (symmetry; apply Z.eqb_neq; lia).
    replace (len s1 =? 10) with false by (symmetry; apply Z.eqb_neq; lia).
    reflexivity. }
  rewrite Hskip, Hread. cbn [bind]. cbv zeta.
  change (Z.land (len (flat_map encode_field texts) + 7) (Z.lnot 7))
    with (align8 (len (flat_map encode_field texts))).
  pose proof (align8_form (len (flat_map encode_field texts))) as Halign.
  replace (align8 (len (flat_map encode_field texts)))
    with (len (flat_map encode_field texts ++ pad))
    by (rewrite len_app_lists; lia).
  replace (flat_map encode_field texts ++ pad ++ block ++ post)
    with ((flat_map encode_field texts ++ pad) ++ block ++ post)
    by (rewrite <- app_assoc; reflexivity).
  rewrite decode_metrics_inside.
  - cbn [bind]. cbv zeta. rewrite emit_metrics_pure.
    rewrite value_map_at_middle by exact Hblock.
    rewrite keep_metrics_filter
      by (rewrite value_map_at_keys; exact metric_keys_nodup).
    f_equal. f_equal. apply filter_ext. intros [k v]. cbn [snd].
    unfold kept, handle_double.
    destruct (isfinite v); [reflexivity |].
    change (float_eq_zero pos_zero) with true. reflexivity.
  - apply len_nonneg.
  - rewrite !len_app_lists. pose proof (len_nonneg post). lia.
Qed.

Lemma build_pair_layout_witness :
  build_pair reference_platform
    (flat_map encode_field six_texts_sample ++ repeat x00 6 ++ full_block ++ [])
  = Ok (emitted reference_platform
          (filter (fun kv => isfinite (snd kv) && negb (float_eq_zero (snd kv)))
             (value_map_at (native reference_platform) full_block 0))
          (store_texts (combine fields six_texts_sample) [])).
Proof.
  apply (build_pair_layout reference_platform six_texts_sample
           (repeat x00 6) full_block []).
  - reflexivity.
  - repeat (constructor; [apply field_text_check; reflexivity |]). constructor.
  - intros s Hs. injection Hs as <-. vm_compute. discriminate.
  - vm_compute. reflexivity.
  - reflexivity.
Defined.

(** ** The schema of a record *)

Lemma dict_set_keys {V : Type} (k k' : string) (v : V) (d : dict V) :
  In k' (map fst (dict_set k v d)) <-> k' = k \/ In k' (map fst d).
Proof.
  induction d as [| [k0 v0] d IH]; simpl.
  - intuition congruence.
  - destruct (String.eqb k0 k) eqn:E; simpl.
    + apply String.eqb_eq in E. subst k0. intuition congruence.
    + rewrite IH. intuition congruence.
Qed.

Lemma dict_set_nodup {V : Type} (k : string) (v : V) (d : dict V) :
  NoDup (map fst d) -> NoDup (map fst (dict_set k v d)).
Proof.
  induction d as [| [k0 v0] d IH]; simpl; intros Hnd.
  - constructor; [intros [] | constructor].
  - inversion Hnd as [| ? ? Hnotin Hnd']; subst.
    destruct (String.eqb k0 k) eqn:E; simpl.
    + constructor; assumption.
    + constructor; [| apply IH; exact Hnd'].
      intros Hin. apply dict_set_keys in Hin. destruct Hin as [-> | Hin].
      * rewrite String.eqb_refl in E. discriminate E.
      * tauto.
Qed.

Lemma conforms_set (P : platform) (k : string) (v : value) (pair : record) :
  entry P k v -> conforms P pair -> conforms P (dict_set k v pair).
Proof.
  intros Hentry [Hnd Hall]. split; [apply dict_set_nodup; exact Hnd |].
  intros key x Hget.
  destruct (string_dec key k) as [-> | Hne].
  - rewrite dict_get_set_same in Hget. injection Hget as <-. exact Hentry.
  - rewrite dict_get_set_other in Hget by exact Hne. apply Hall, Hget.
Qed.

Lemma decode_field_conforms (P : platform) (data : list byte) (pos : Z)
  (field : string) (pair : record) (pos' : Z) (pair' : record) :
  In field fields ->
  decode_field data pos field pair = Ok (pos', pair') ->
  conforms P pair -> conforms P pair'.
Proof.
  intros Hfield Hrun Hpair. unfold decode_field in Hrun.
  apply bind_ok in Hrun. destruct Hrun as [b [_ Hrun]]. cbv zeta in Hrun.
  destruct ((ord_byte b =? 0) || (ord_byte b >? 100)
            || (pos + 1 + ord_byte b >? len data)).
  - injection Hrun as _ <-. exact Hpair.
  - injection Hrun as _ <-.
    destruct (truthy _) eqn:Et; [| exact Hpair].
    apply conforms_set; [| exact Hpair].
    apply entry_text; [exact Hfield | | apply clean_string_cleaned].
    intros Hnil. rewrite Hnil in Et. discriminate Et.
Qed.

Lemma decode_fields_conforms (P : platform) (data : list byte)
  (fs : list string) :
  incl fs fields ->
  forall pos pair pos' pair',
    decode_fields data fs pos pair = Ok (pos', pair') ->
    conforms P pair -> conforms P pair'.
Proof.
  induction fs as [| field fs IH]; intros Hincl pos pair pos' pair' Hrun Hpair.
  - injection Hrun as _ <-. exact Hpair.
  - cbn [decode_fields] in Hrun.
    destruct (pos >=? len data).
    + injection Hrun as _ <-. exact Hpair.
    + apply bind_ok in Hrun. destruct Hrun as [[pos1 pair1] [Hone Hrest]].
      apply (IH (fun k Hk => Hincl k (or_intror Hk)) pos1 pair1 pos' pair' Hrest).
      apply (decode_field_conforms P data pos field pair pos1 pair1);
        [apply Hincl; left; reflexivity | exact Hone | exact Hpair].
Qed.

Lemma with_metric_conforms (P : platform) (key k : string)
  (metrics : dict float64) (make : float64 -> value) (pair : record) :
  (forall v, dict_get key metrics = Some v -> entry P k (make v)) ->
  conforms P pair ->
  conforms P (with_metric key metrics (fun v => dict_set k (make v)) pair).
Proof.
  intros Hentry Hpair. unfold with_metric.
  destruct (dict_get key metrics) as [v |]; [| exact Hpair].
  apply conforms_set; [apply Hentry; reflexivity | exact Hpair].
Qed.

(** The creation time of a surviving timestamp that passes the range test
    lies in the range. *)
Lemma float_trunc_in_range (ts : float64) :
  surviving ts ->
  float_ge_zero ts && float_lt_int ts year_2100 = true ->
  0 <= float_trunc ts < year_2100.
Proof.
  intros [Hfin Hnz] Htest. apply andb_true_iff in Htest.
  destruct Htest as [Hge Hlt].
  unfold float_ge_zero in Hge. rewrite Hnz, orb_false_r in Hge.
  apply andb_true_iff in Hge. destruct Hge as [Hnan Hsign].
  apply negb_true_iff in Hnan, Hsign.
  unfold float_lt_int in Hlt. rewrite Hnan, Hfin in Hlt. apply Z.ltb_lt in Hlt.
  assert (Hsig : 0 <= signed_significand ts).
  { unfold signed_significand. rewrite Hsign. unfold significand.
    assert (0 <= fraction_field ts)
      by (unfold fraction_field; apply Z.land_nonneg; right; lia).
    destruct (exponent_field ts =? 0); lia. }
  assert (Hsame : float_trunc ts = float_floor ts).
  { unfold float_trunc, float_floor.
    destruct (0 <=? scale ts) eqn:E; [reflexivity |]. apply Z.leb_gt in E.
    apply Z.quot_div_nonneg; [exact Hsig | apply Z.pow_pos_nonneg; lia ]. }
  rewrite Hsame. split; [| exact Hlt].
  unfold float_floor. destruct (0 <=? scale ts) eqn:E.
  - apply Z.leb_le in E. apply Z.mul_nonneg_nonneg; [exact Hsig |].
    apply Z.pow_nonneg. lia.
  - apply Z.div_pos; [exact Hsig |]. apply Z.leb_gt in E.
    apply Z.pow_pos_nonneg; lia.
Qed.

Lemma emitted_conforms (P : platform) (metrics : dict float64) (pair : record) :
  (forall k v, dict_get k metrics = Some v -> surviving v) ->
  conforms P pair -> conforms P (emitted P metrics pair).
Proof.
  intros Hsurv Hpair. unfold emitted.
  destruct (truthy metrics); [| exact Hpair]. cbv zeta.
  assert (Hsix : conforms P
    (with_metric "fdv" metrics
       (fun v => dict_set "fdv" (VStr (float_str P v)))
       (with_metric "volumeH24" metrics
          (fun v => dict_set "volume" (VGroup [("h24", float_str P v)]))
          (with_metric "liquidityUsd" metrics
             (fun v => dict_set "liquidity" (VGroup [("usd", float_str P v)]))
             (with_metric "priceChangeH24" metrics
                (fun v => dict_set "priceChange" (VGroup [("h24", float_str P v)]))
                (with_metric "priceUsd" metrics
                   (fun v => dict_set "priceUsd" (VStr (float_str P v)))
                   (with_metric "price" metrics
                      (fun v => dict_set "price" (VStr (float_str P v)))
                      pair))))))).
  { apply (with_metric_conforms P "fdv" "fdv" metrics
             (fun v => VStr (float_str P v)));
      [intros v Hv; apply entry_fdv, (Hsurv _ _ Hv) |].
    apply (with_metric_conforms P "volumeH24" "volume" metrics
             (fun v => VGroup [("h24", float_str P v)]));
      [intros v Hv; apply entry_volume, (Hsurv _ _ Hv) |].
    apply (with_metric_conforms P "liquidityUsd" "liquidity" metrics
             (fun v => VGroup [("usd", float_str P v)]));
      [intros v Hv; apply entry_liquidity, (Hsurv _ _ Hv) |].
    apply (with_metric_conforms P "priceChangeH24" "priceChange" metrics
             (fun v => VGroup [("h24", float_str P v)]));
      [intros v Hv; apply entry_price_change, (Hsurv _ _ Hv) |].
    apply (with_metric_conforms P "priceUsd" "priceUsd" metrics
             (fun v => VStr (float_str P v)));
      [intros v Hv; apply entry_price_usd, (Hsurv _ _ Hv) |].
    apply (with_metric_conforms P "price" "price" metrics
             (fun v => VStr (float_str P v)));
      [intros v Hv; apply entry_price, (Hsurv _ _ Hv) | exact Hpair]. }
  destruct (dict_get "timestamp" metrics) as [ts |] eqn:Ets; [| exact Hsix].
  destruct (float_ge_zero ts && float_lt_int ts year_2100) eqn:Etest;
    [| exact Hsix].
  pose proof (float_trunc_in_range ts (Hsurv _ _ Ets) Etest) as Hrange.
  apply conforms_set; [apply entry_formatted; exact Hrange |].
  apply conforms_set; [apply entry_created; exact Hrange | exact Hsix].
Qed.

Lemma entry_key (P : platform) (k : string) (x : value) :
  entry P k x -> In k record_keys.
Proof.
  intros H. unfold record_keys.
  destruct H; try (apply in_or_app; right; simpl; tauto).
  apply in_or_app. left. assumption.
Qed.

Lemma dict_get_present {V : Type} (k : string) (d : dict V) :
  In k (map fst d) -> exists v, dict_get k d = Some v.
Proof.
  induction d as [| [k' v'] d IH]; simpl; [intros [] |].
  destruct (String.eqb k' k) eqn:E; [intros _; eexists; reflexivity |].
  intros [-> | Hin]; [rewrite String.eqb_refl in E; discriminate E |].
  apply IH, Hin.
Qed.

Lemma conforms_size (P : platform) (pair : record) :
  conforms P pair -> conforms P pair /\ len pair <= 14.
Proof.
  intros Hc. split; [exact Hc |]. destruct Hc as [Hnd Hall].
  assert (Hincl : incl (map fst pair) record_keys).
  { intros k Hk. destruct (dict_get_present k pair Hk) as [v Hv].
    apply (entry_key P k v), Hall, Hv. }
  pose proof (NoDup_incl_length Hnd Hincl) as Hlen.
  rewrite length_map in Hlen. unfold len.
  change (List.length record_keys) with 14%nat in Hlen. lia.
Qed.

(** Every mapping [decode_pair] builds, and so every record it returns,
    follows the schema: no key twice; under the six field names a
    non-empty cleaned text; under price, priceUsd and fdv the rendering
    of a finite non-zero float; under priceChange, liquidity and volume a
    one-key group holding such a rendering; under pairCreatedAt an integer
    from 0 up to, not including, 4102444800; under pairCreatedAtFormatted
    the formatted time or the epoch origin; and no other key, so at most
    14 of them. *)
Theorem build_pair_conforms (P : platform) (data : list byte) (pair : record) :
  build_pair P data = Ok pair -> conforms P pair /\ len pair <= 14.
Proof.
  intros Hrun. apply conforms_size.
  unfold build_pair in Hrun.
  apply bind_ok in Hrun. destruct Hrun as [[pos pair0] [Hfields Hrun]].
  cbv zeta in Hrun.
  apply bind_ok in Hrun. destruct Hrun as [[metrics pos'] [Hmetrics Hrun]].
  cbv zeta in Hrun. rewrite emit_metrics_pure in Hrun. injection Hrun as <-.
  apply emitted_conforms.
  - intros k v. apply (decode_metrics_surviving _ _ _ _ _ k v Hmetrics).
  - apply (decode_fields_conforms P data fields (incl_refl fields)
             _ _ _ _ Hfields).
    split; [constructor | intros k x H; discriminate H].
Qed.

Lemma build_pair_conforms_witness :
  conforms reference_platform full_record /\ len full_record <= 14.
Proof.
  apply (build_pair_conforms reference_platform full_slice full_record).
  vm_compute. reflexivity.
Defined.

(** ** What a frame prints *)

Lemma decoded_records_in (P : platform) (chunks : list (list byte)) (r : record) :
  In r (decoded_records P chunks) ->
  exists chunk, In chunk chunks /\ decode_pair P chunk = Ok (Some r).
Proof.
  unfold decoded_records. intros Hin. apply in_flat_map in Hin.
  destruct Hin as [chunk [Hchunk Hr]]. exists chunk. split; [exact Hchunk |].
  destruct (decode_pair P chunk) as [[p |] | e]; try (destruct Hr; fail).
  destruct (truthy p); [| destruct Hr].
  destruct Hr as [<- | []]. reflexivity.
Qed.

Lemma decoded_records_length (P : platform) (chunks : list (list byte)) :
  (List.length (decoded_records P chunks) <= List.length chunks)%nat.
Proof.
  induction chunks as [| chunk chunks IH]; [apply Nat.le_refl |].
  rewrite decoded_records_cons, length_app. cbn [List.length].
  destruct (decode_pair P chunk) as [[p |] | e]; [destruct (truthy p) | |];
    cbn [List.length]; lia.
Qed.

Lemma scan_message_some (P : platform) (message : list byte)
  (batch : list record) :
  scan_message P message = Ok (Some batch) ->
  startswith message magic_header = true
  /\ find message pairs_token <> -1
  /\ batch = decoded_records P (slices 512 (section_after_token 0 message)).
Proof.
  intros Hrun.
  destruct (startswith message magic_header) eqn:Eh.
  2:{ unfold scan_message in Hrun. rewrite Eh in Hrun. discriminate Hrun. }
  destruct (Z.eq_dec (find message pairs_token) (-1)) as [Ef | Ef].
  { unfold scan_message in Hrun. rewrite Eh, Ef in Hrun. discriminate Hrun. }
  split; [reflexivity |]. split; [exact Ef |].
  assert (Hfound : 0 <= find message pairs_token).
  { destruct (find_from_range message pairs_token 0) as [H | H];
      [unfold find in Ef; congruence | exact H]. }
  rewrite (scan_message_at P message _ Eh eq_refl Hfound) in Hrun.
  injection Hrun as <-. unfold section_after_token.
  change (List.length pairs_token) with 5%nat.
  replace (Z.to_nat (find message pairs_token) + 5 + 0)%nat
    with (Z.to_nat (find message pairs_token + 5)) by lia.
  reflexivity.
Qed.

(** A frame prints at most one batch, never an empty one, and only from a
    binary message with the header and the token; every record of the
    batch has more than two keys and holds both the volume and the
    liquidity group. *)
Theorem printed_batch_valid (P : platform) (m : message) (batch : list record) :
  In (Printed batch) (handle_message P m) ->
  handle_message P m = [Printed batch]
  /\ batch <> []
  /\ (exists data, m = Binary data
                   /\ startswith data magic_header = true
                   /\ find data pairs_token <> -1)
  /\ Forall (fun r => accepted r = true) batch.
Proof.
  intros Hin. destruct m as [s | data]; unfold handle_message in *.
  - destruct (ustring_eqb s (lit "ping"));
      [destruct Hin as [H | []]; discriminate H | destruct Hin].
  - destruct (scan_message P data) as [[pairs |] | e] eqn:Escan;
      try (destruct Hin; fail).
    destruct (truthy pairs) eqn:Et; [| destruct Hin].
    destruct Hin as [H | []]. injection H as <-.
    destruct (scan_message_some P data pairs Escan) as [Hh [Hf Hbatch]].
    split; [reflexivity |]. split; [intros ->; discriminate Et |].
    split; [exists data; repeat split; assumption |].
    apply Forall_forall. intros r Hr. rewrite Hbatch in Hr.
    apply decoded_records_in in Hr. destruct Hr as [chunk [_ Hdec]].
    apply decode_pair_some in Hdec. destruct Hdec as [_ Hval].
    apply validate_some in Hval. destruct Hval as [_ [Hlen [Hvol Hliq]]].
    unfold accepted. rewrite Hvol, Hliq, !andb_true_r.
    rewrite Z.gtb_ltb. apply Z.ltb_lt. lia.
Qed.

Lemma printed_batch_valid_witness :
  handle_message reference_platform (Binary sample_frame) = [Printed [full_record]]
  /\ [full_record] <> []
  /\ (exists data, Binary sample_frame = Binary data
                   /\ startswith data magic_header = true
                   /\ find data pairs_token <> -1)
  /\ Forall (fun r => accepted r = true) [full_record].
Proof.
  apply (printed_batch_valid reference_platform (Binary sample_frame)
           [full_record]).
  vm_compute. left. reflexivity.
Defined.

(** A batch holds at most one record per 512-byte slice of the bytes that
    follow the token. *)
Theorem batch_size_bound (P : platform) (message : list byte)
  (batch : list record) :
  scan_message P message = Ok (Some batch) ->
  (List.length batch
   <= (List.length (section_after_token 0 message) + 511) / 512)%nat.
Proof.
  intros Hrun. destruct (scan_message_some P message batch Hrun) as [_ [_ ->]].
  eapply Nat.le_trans; [apply decoded_records_length |].
  unfold slices. rewrite length_map, length_seq. apply Nat.le_refl.
Qed.

Lemma batch_size_bound_witness :
  (List.length [full_record]
   <= (List.length (section_after_token 0 sample_frame) + 511) / 512)%nat.
Proof.
  apply (batch_size_bound reference_platform sample_frame [full_record]).
  vm_compute. reflexivity.
Defined.

(** ** Waiting *)


Lemma double_capped (k : nat) :
  Z.min (Z.min (2 ^ Z.of_nat k) 60 * 2) 60 = Z.min (2 ^ Z.of_nat (S k)) 60.
Proof.
  rewrite Nat2Z.inj_succ, Z.pow_succ_r by lia.
  pose proof (Z.pow_pos_nonneg 2 (Z.of_nat k) ltac:(lia) ltac:(lia)). lia.
Qed.

Lemma main_loop_backoff (P : platform) (n k : nat) :
  sleeps (main_loop P (repeat SetupFails n) (Z.min (2 ^ Z.of_nat k) 60))
  = map (fun j => Z.min (2 ^ Z.of_nat j) 60) (seq k n).
Proof.
  revert k. induction n as [| n IH]; intros k; [reflexivity |].
  cbn [repeat main_loop connect_to_dexscreener app seq map].
  change (sleeps (Slept (Z.min (2 ^ Z.of_nat k) 60)
                  :: main_loop P (repeat SetupFails n)
                       (Z.min (Z.min (2 ^ Z.of_nat k) 60 * 2) 60)))
    with (Z.min (2 ^ Z.of_nat k) 60
          :: sleeps (main_loop P (repeat SetupFails n)
                       (Z.min (Z.min (2 ^ Z.of_nat k) 60 * 2) 60))).
  rewrite double_capped, IH. reflexivity.
Qed.

(** When [connect_to_dexscreener] itself raises, [main] waits before it
    calls again, and the wait after the k-th raise in a row (counting
    from 0) is 2^k capped at 60: 1, 2, 4, 8, 16, 32, 60, 60, ... *)
Theorem main_backoff_waits (P : platform) (n : nat) :
  sleeps (main P (repeat SetupFails n))
  = map (fun k => Z.min (2 ^ Z.of_nat k) 60) (seq 0 n).
Proof.
  unfold main. change 1 with (Z.min (2 ^ Z.of_nat 0) 60) at 1.
  apply main_loop_backoff.
Qed.

(** ** The creation time *)

Lemma dict_get_with_metric (k key : string) (metrics : dict float64)
  (store : float64 -> record -> record) (pair : record) :
  (forall v p, dict_get k (store v p) = dict_get k p) ->
  dict_get k (with_metric key metrics store pair) = dict_get k pair.
Proof.
  intros Hstore. unfold with_metric.
  destruct (dict_get key metrics); [apply Hstore | reflexivity].
Qed.

Lemma fields_leave_key (data : list byte) (pos pos' : Z) (pair' : record)
  (k : string) :
  ~ In k fields ->
  decode_fields data fields pos [] = Ok (pos', pair') ->
  dict_get k pair' = None.
Proof.
  intros Hout Hrun.
  destruct (dict_get k pair') as [x |] eqn:E; [| reflexivity].
  exfalso.
  assert (Hmem : dict_mem k pair' = true)
    by (unfold dict_mem; rewrite E; reflexivity).
  destruct (decode_fields_keys data fields k pos [] pos' pair' Hrun Hmem)
    as [H | H]; [discriminate H | exact (Hout H)].
Qed.

(** The two creation-time keys come together or not at all.  When they are
    there, pairCreatedAt is an integer from 0 up to, not including,
    4102444800 and pairCreatedAtFormatted is that instant formatted by the
    platform, or the epoch origin if formatting raised. *)
Theorem creation_time_keys (P : platform) (data : list byte) (pair : record) :
  build_pair P data = Ok pair ->
  (dict_get "pairCreatedAt" pair = None
   /\ dict_get "pairCreatedAtFormatted" pair = None)
  \/ (exists n,
        0 <= n < year_2100
        /\ dict_get "pairCreatedAt" pair = Some (VInt n)
        /\ dict_get "pairCreatedAtFormatted" pair
           = Some (VStr (formatted_or_origin P n))).
Proof.
  unfold build_pair. intros Hrun.
  apply bind_ok in Hrun. destruct Hrun as [[pos pair0] [Hfields Hrun]].
  cbv zeta in Hrun.
  apply bind_ok in Hrun. destruct Hrun as [[metrics pos'] [Hmetrics Hrun]].
  cbv zeta in Hrun. rewrite emit_metrics_pure in Hrun. injection Hrun as <-.
  assert (Hc0 : dict_get "pairCreatedAt" pair0 = None).
  { apply (fields_leave_key data _ _ _ "pairCreatedAt") with (2 := Hfields).
    simpl. intuition discriminate. }
  assert (Hf0 : dict_get "pairCreatedAtFormatted" pair0 = None).
  { apply (fields_leave_key data _ _ _ "pairCreatedAtFormatted")
      with (2 := Hfields).
    simpl. intuition discriminate. }
  unfold emitted. destruct (truthy metrics); [| left; split; assumption].
  cbv zeta.
  destruct (dict_get "timestamp" metrics) as [ts |] eqn:Ets.
  2:{ left. split;
        (rewrite !dict_get_with_metric
           by (intros; apply dict_get_set_other; discriminate));
        assumption. }
  destruct (float_ge_zero ts && float_lt_int ts year_2100) eqn:Etest.
  2:{ left. split;
        (rewrite !dict_get_with_metric
           by (intros; apply dict_get_set_other; discriminate));
        assumption. }
  right. exists (float_trunc ts).
  split; [| split].
  - apply float_trunc_in_range; [| exact Etest].
    apply (decode_metrics_surviving _ _ _ _ _ "timestamp" ts Hmetrics Ets).
  - rewrite dict_get_set_other by discriminate. apply dict_get_set_same.
  - apply dict_get_set_same.
Qed.

Lemma creation_time_keys_witness :
  (dict_get "pairCreatedAt" full_record = None
   /\ dict_get "pairCreatedAtFormatted" full_record = None)
  \/ (exists n,
        0 <= n < year_2100
        /\ dict_get "pairCreatedAt" full_record = Some (VInt n)
        /\ dict_get "pairCreatedAtFormatted" full_record
           = Some (VStr (formatted_or_origin reference_platform n))).
Proof.
  apply (creation_time_keys reference_platform full_slice full_record).
  vm_compute. reflexivity.
Defined.

(** ** The slices *)




Lemma decode_fields_cursor_witness :
  exists pos' pair',
    decode_fields full_slice fields 0 [] = Ok (pos', pair')
    /\ 0 <= pos' <= 0 + 256 * len fields
    /\ pos' <= Z.max 0 (len full_slice + 255)
    /\ (forall k, dict_mem k pair' = true ->
                  dict_mem k (@nil (string * value)) = true \/ In k fields).
Proof.
  apply (decode_fields_cursor full_slice fields 0 []). lia.
Defined.
